(** * The langflow graph engine ([langflow/graph/graph/base.py])

    A shallow embedding of the [Graph] class: construction from raw node and
    edge records, vertex-class resolution, role-based parameter propagation,
    connectivity validation, the two depth-first orderings, and the textual
    representation used for equality.

    Conventions of the embedding.
    - A Python reference to a vertex object is the position of that object in
      [self.vertices] (a [nat]); two references are the same object exactly
      when they are the same number.
    - A raised exception is a value of [exn]; a function that may raise
      returns a [result].  Error messages are the very strings the source
      formats.
    - Recursion is driven by a fuel argument; [OutOfFuel] is not a Python
      outcome, and the sorts are shown never to produce it with the fuel they
      are given.  Python's own recursion limit is not modelled.
    - Externals of this file (the dispatch table, the file-tool names, the
      flow normalizer, a vertex's parameter preparation, [repr] on strings)
      are section variables. *)

From Stdlib Require Import ZArith Ascii String List.
From stdpp Require Import gmap strings list fin_maps.

Set Warnings "-register-all".

(** ** Python values, exceptions, results *)

(** JSON-like values carried by raw node, edge and payload dictionaries.
    A dictionary keeps its keys in insertion order. *)
Inductive PyVal : Type :=
| PyNone
| PyBool (b : bool)
| PyInt (z : Z)
| PyStr (s : string)
| PyList (l : list PyVal)
| PyDict (d : list (string * PyVal)).

Inductive exn : Type :=
| KeyError (key : string)
| TypeError (what : string)
| AttributeError (attr : string)
| ValueError (msg : string).

Inductive result (A : Type) : Type :=
| Ok (a : A)
| Raise (e : exn)
| OutOfFuel.
Arguments Ok {A} a.
Arguments Raise {A} e.
Arguments OutOfFuel {A}.

Definition rbind {A B} (r : result A) (f : A -> result B) : result B :=
  match r with
  | Ok a => f a
  | Raise e => Raise e
  | OutOfFuel => OutOfFuel
  end.

(** [d.get(k)] and [k in d] on a dictionary. *)
Fixpoint dict_get {V} (d : list (string * V)) (k : string) : option V :=
  match d with
  | [] => None
  | (k', v) :: d' => if String.eqb k' k then Some v else dict_get d' k
  end.

(** [list(d.keys())]. *)
Definition dict_keys {V} (d : list (string * V)) : list string := map fst d.

(** [v[k]] for a string key: [KeyError] on a dictionary without the key,
    [TypeError] on a value that is not a dictionary. *)
Definition getitem (v : PyVal) (k : string) : result PyVal :=
  match v with
  | PyDict d =>
      match dict_get d k with
      | Some x => Ok x
      | None => Raise (KeyError k)
      end
  | _ => Raise (TypeError "subscript")
  end.

(** The places the source annotates [str]. *)
Definition as_str (v : PyVal) : result string :=
  match v with
  | PyStr s => Ok s
  | _ => Raise (TypeError "str")
  end.

(** Python truthiness, as tested by [if node_id := node.get("id")]. *)
Definition truthy (v : PyVal) : bool :=
  match v with
  | PyNone => false
  | PyBool b => b
  | PyInt z => negb (Z.eqb z 0)
  | PyStr s => negb (String.eqb s "")
  | PyList l => match l with [] => false | _ => true end
  | PyDict d => match d with [] => false | _ => true end
  end.

(** [sep.join(l)]. *)
Fixpoint join (sep : string) (l : list string) : string :=
  match l with
  | [] => ""
  | [x] => x
  | x :: l' => x +:+ sep +:+ join sep l'
  end.

(** [s.split(sep)[0]] for a one-character separator: the characters before
    the first separator, the whole string when there is none. *)
Fixpoint split_head (sep : ascii) (s : string) : string :=
  match s with
  | EmptyString => EmptyString
  | String c s' => if Ascii.eqb c sep then EmptyString else String c (split_head sep s')
  end.

Definition newline : string := String (ascii_of_nat 10) EmptyString.

(** ** Vertices, edges, graphs *)

(** The vertex behaviours [base.py] names, and any other class the dispatch
    table may hold.  [isinstance(node, LLMVertex)] is [LLMVertex] itself. *)
Inductive VertexClass : Type :=
| Vertex
| FileToolVertex
| LLMVertex
| ToolkitVertex
| RegisteredVertex (name : string).

Definition is_LLMVertex (c : VertexClass) : bool :=
  match c with LLMVertex => true | _ => false end.

Definition is_ToolkitVertex (c : VertexClass) : bool :=
  match c with ToolkitVertex => true | _ => false end.

(** [ContractEdge(source, target, edge)]: the two endpoint references and the
    raw record. *)
Record Edge : Type := mkEdge {
  source : nat;
  target : nat;
  raw_edge : list (string * PyVal)
}.

(** A value stored in [vertex.params]: raw configuration, or a reference to a
    vertex object. *)
Inductive ParamVal : Type :=
| ParamRaw (v : PyVal)
| ParamVertex (ref : nat).

(** Modelled from the spec: the [Vertex] class (langflow/graph/vertex/base.py)
    is not among the sources.  A vertex has a string identifier, a declared
    type ([vertex_type]), its raw record, the incident edges registered on it,
    its parameter dictionary, the top-level mark and the layer, which is
    absent until the layered ordering assigns it. *)
Record VertexObject : Type := mkVertex {
  vertex_class : VertexClass;
  id : string;
  vertex_type : string;
  data : list (string * PyVal);
  edges_of : list Edge;
  params : list (string * ParamVal);
  is_top_level : bool;
  layer : option nat
}.

Record Graph : Type := mkGraph {
  top_level_nodes : list PyVal;
  _nodes : list (list (string * PyVal));
  _edges : list (list (string * PyVal));
  vertices : list VertexObject;
  edges : list Edge
}.

(** ** Effects of construction

    Construction is observed through the events it leaves behind: each
    instantiation of a vertex class, each run of a vertex's parameter
    preparation, each exception handed to the logger. *)
Inductive event : Type :=
| VertexInstantiated (c : VertexClass) (node_id : string)
| ParamsPrepared (ref : nat)
| ExceptionLogged (e : exn).

(** A computation that may raise and that appends events to a log. *)
Definition M (A : Type) : Type := (result A * list event)%type.

Definition ret {A} (a : A) : M A := (Ok a, []).

Definition bind {A B} (m : M A) (f : A -> M B) : M B :=
  match m with
  | (Ok a, w) => let '(r, w') := f a in (r, w ++ w')
  | (Raise e, w) => (Raise e, w)
  | (OutOfFuel, w) => (OutOfFuel, w)
  end.

Definition lift {A} (r : result A) : M A := (r, []).

Definition emit (ev : event) : M unit := (Ok tt, [ev]).

Notation "'let!' x ':=' m 'in' k" := (bind m (fun x => k))
  (at level 10, x name, m at level 100, k at level 200, only parsing).
Notation "'do!' m 'in' k" := (bind m (fun _ => k))
  (at level 10, m at level 100, k at level 200, only parsing).

(** [get_vertex]: the first vertex whose identifier is [node_id], as a
    reference, or [None]. *)
Fixpoint get_vertex_from (base : nat) (vs : list VertexObject) (node_id : string) : option nat :=
  match vs with
  | [] => None
  | v :: vs' => if String.eqb (id v) node_id then Some base else get_vertex_from (S base) vs' node_id
  end.

Definition get_vertex (vs : list VertexObject) (node_id : string) : option nat :=
  get_vertex_from 0 vs node_id.

(** Modelled from the spec: [Vertex.add_edge] (not among the sources)
    registers an edge on the vertex; incident edges are append-only.  The
    specification speaks of the set of incident edges: the properties below
    rely on which edges a vertex holds, never on how many times it holds
    one. *)
Definition add_edge (e : Edge) (v : VertexObject) : VertexObject :=
  mkVertex (vertex_class v) (id v) (vertex_type v) (data v) (edges_of v ++ [e])
           (params v) (is_top_level v) (layer v).

Definition set_params (p : list (string * ParamVal)) (v : VertexObject) : VertexObject :=
  mkVertex (vertex_class v) (id v) (vertex_type v) (data v) (edges_of v)
           p (is_top_level v) (layer v).

Definition set_layer (n : nat) (v : VertexObject) : VertexObject :=
  mkVertex (vertex_class v) (id v) (vertex_type v) (data v) (edges_of v)
           (params v) (is_top_level v) (Some n).

(** [d[k] = x] on a dictionary: the value is replaced in place when the key
    is there, and the key is added at the end otherwise. *)
Fixpoint dict_set {V} (d : list (string * V)) (k : string) (x : V) : list (string * V) :=
  match d with
  | [] => [(k, x)]
  | (k', v) :: d' => if String.eqb k' k then (k, x) :: d' else (k', v) :: dict_set d' k x
  end.

(** The incident edges of the vertex a reference points to. *)
Definition node_edges (vs : list VertexObject) (node : nat) : list Edge :=
  match vs !! node with
  | Some v => edges_of v
  | None => []
  end.

Section Engine.

(** [lazy_load_vertex_dict.VERTEX_TYPE_MAP]: type name to vertex class. *)
Variable VERTEX_TYPE_MAP : gmap string VertexClass.
(** [FILE_TOOLS]: the names of the file-tool category. *)
Variable FILE_TOOLS : gset string.
(** [process_flow]: the flow normalizer, from (nodes, edges) to (nodes, edges). *)
Variable process_flow :
  list (list (string * PyVal)) * list (list (string * PyVal)) ->
  list (list (string * PyVal)) * list (list (string * PyVal)).
(** [Vertex._build_params]: the parameters a vertex prepares for itself. *)
Variable _build_params : VertexObject -> list (string * ParamVal).
(** Python's [repr] on a string. *)
Variable repr : string -> string.

(** *** [Graph._get_vertex_class] *)
Definition _get_vertex_class (node_type node_lc_type node_id : string) : VertexClass :=
  let node_name := split_head "-" node_id in
  match VERTEX_TYPE_MAP !! node_name with
  | Some c => c
  | None =>
      if decide (node_type ∈ FILE_TOOLS) then FileToolVertex
      else match VERTEX_TYPE_MAP !! node_type with
           | Some c => c
           | None =>
               match VERTEX_TYPE_MAP !! node_lc_type with
               | Some c => c
               | None => Vertex
               end
           end
  end.

(** Modelled from the spec: [Vertex.set_top_level] (not among the sources)
    marks the vertex top-level when its identifier is in [top_level_nodes]. *)
Definition set_top_level (top : list PyVal) (v : VertexObject) : VertexObject :=
  mkVertex (vertex_class v) (id v) (vertex_type v) (data v) (edges_of v) (params v)
           (existsb (fun x => match x with PyStr s => String.eqb s (id v) | _ => false end) top)
           (layer v).

(** Modelled from the spec: the constructor [VertexClass(node)] (not among
    the sources) makes a vertex of that class from the raw record, with no
    incident edge, no parameter and no layer yet. *)
Definition new_vertex (c : VertexClass) (node : list (string * PyVal))
    (node_id node_type : string) : M VertexObject :=
  do! emit (VertexInstantiated c node_id) in
  ret (mkVertex c node_id node_type node [] [] false None).

(** *** [Graph._build_vertices] *)
Definition _build_vertex (top : list PyVal) (node : list (string * PyVal)) : M VertexObject :=
  let! node_data := lift (getitem (PyDict node) "data") in
  let! node_type := lift (rbind (getitem node_data "type") as_str) in
  let! node_lc_type := lift (rbind (rbind (rbind (getitem node_data "node")
                    (fun x => getitem x "template")) (fun x => getitem x "_type")) as_str) in
  let! node_id := lift (rbind (getitem (PyDict node) "id") as_str) in
  let VertexClass := _get_vertex_class node_type node_lc_type node_id in
  let! vertex := new_vertex VertexClass node node_id node_type in
  ret (set_top_level top vertex).

Fixpoint _build_vertices_from (top : list PyVal) (raw : list (list (string * PyVal)))
    (nodes : list VertexObject) : M (list VertexObject) :=
  match raw with
  | [] => ret nodes
  | node :: raw' =>
      let! vertex := _build_vertex top node in
      _build_vertices_from top raw' (nodes ++ [vertex])
  end.

Definition _build_vertices (top : list PyVal) (raw : list (list (string * PyVal))) : M (list VertexObject) :=
  _build_vertices_from top raw [].

(** *** [Graph._build_edges] *)
Definition _build_edge (vs : list VertexObject) (edge : list (string * PyVal)) : result Edge :=
  rbind (rbind (getitem (PyDict edge) "source") as_str) (fun src =>
  let source := get_vertex vs src in
  rbind (rbind (getitem (PyDict edge) "target") as_str) (fun tgt =>
  let target := get_vertex vs tgt in
  match source with
  | None => Raise (ValueError ("Source node " +:+ src +:+ " not found"))
  | Some s =>
      match target with
      | None => Raise (ValueError ("Target node " +:+ tgt +:+ " not found"))
      | Some t => Ok (mkEdge s t edge)
      end
  end)).

Fixpoint _build_edges_from (vs : list VertexObject) (raw : list (list (string * PyVal)))
    (edges : list Edge) : result (list Edge) :=
  match raw with
  | [] => Ok edges
  | edge :: raw' =>
      rbind (_build_edge vs edge) (fun e => _build_edges_from vs raw' (edges ++ [e]))
  end.

Definition _build_edges (vs : list VertexObject) (raw : list (list (string * PyVal))) : result (list Edge) :=
  _build_edges_from vs raw [].

(** *** Cross-registration of edges ([_build_graph], the loop over
    [self.edges]) *)
Fixpoint register_edges (es : list Edge) (vs : list VertexObject) : list VertexObject :=
  match es with
  | [] => vs
  | edge :: es' =>
      let vs1 := alter (add_edge edge) (source edge) vs in
      let vs2 := alter (add_edge edge) (target edge) vs1 in
      register_edges es' vs2
  end.

(** *** [Graph._build_node_params] *)

(** The first loop: every vertex prepares its parameters, and [llm_node]
    ends up as the last vertex of class [LLMVertex]. *)
Fixpoint prepare_params_from (base : nat) (vs : list VertexObject) (llm_node : option nat)
    : M (list VertexObject * option nat) :=
  match vs with
  | [] => ret ([], llm_node)
  | node :: vs' =>
      do! emit (ParamsPrepared base) in
      let node' := set_params (_build_params node) node in
      let llm_node' := if is_LLMVertex (vertex_class node') then Some base else llm_node in
      let! r := prepare_params_from (S base) vs' llm_node' in
      ret (node' :: fst r, snd r)
  end.

(** The second loop: [node.params["llm"] = llm_node] on every toolkit vertex. *)
Definition inject_llm (llm_node : nat) (vs : list VertexObject) : list VertexObject :=
  map (fun node =>
         if is_ToolkitVertex (vertex_class node)
         then set_params (dict_set (params node) "llm" (ParamVertex llm_node)) node
         else node) vs.

Definition _build_node_params (vs : list VertexObject) : M (list VertexObject) :=
  let! r := prepare_params_from 0 vs None in
  match snd r with
  | Some llm_node => ret (inject_llm llm_node (fst r))
  | None => ret (fst r)
  end.

(** *** [Graph._validate_node] and [Graph._validate_nodes] *)
Definition _validate_node (node : VertexObject) : bool :=
  Nat.ltb 0 (length (edges_of node)).

Fixpoint _validate_nodes_loop (vs : list VertexObject) : result unit :=
  match vs with
  | [] => Ok tt
  | node :: vs' =>
      if negb (_validate_node node)
      then Raise (ValueError (vertex_type node +:+ " is not connected to any other components"))
      else _validate_nodes_loop vs'
  end.

Definition _validate_nodes (vs : list VertexObject) : result unit :=
  if Nat.eqb (length vs) 1 then Ok tt else _validate_nodes_loop vs.

(** *** [Graph._build_graph] and [Graph.__init__] *)
Definition _build_graph (top : list PyVal) (raw_nodes raw_edges : list (list (string * PyVal)))
    : M Graph :=
  let! vs := _build_vertices top raw_nodes in
  let! es := lift (_build_edges vs raw_edges) in
  let vs := register_edges es vs in
  let! vs := _build_node_params vs in
  do! lift (_validate_nodes vs) in
  ret (mkGraph top raw_nodes raw_edges vs es).

(** [self.top_level_nodes]: the truthy [node.get("id")] of the nodes given. *)
Fixpoint collect_top_level (nodes : list (list (string * PyVal))) : list PyVal :=
  match nodes with
  | [] => []
  | node :: nodes' =>
      match dict_get node "id" with
      | Some node_id =>
          if truthy node_id then node_id :: collect_top_level nodes'
          else collect_top_level nodes'
      | None => collect_top_level nodes'
      end
  end.

Definition __init__ (nodes edges : list (list (string * PyVal))) : M Graph :=
  let top := collect_top_level nodes in
  let _graph_data := process_flow (nodes, edges) in
  _build_graph top (fst _graph_data) (snd _graph_data).

(** *** [Graph.from_payload] *)

(** A value passed where the constructor expects [List[Dict]]. *)
Fixpoint as_records (l : list PyVal) : result (list (list (string * PyVal))) :=
  match l with
  | [] => Ok []
  | PyDict d :: l' => rbind (as_records l') (fun r => Ok (d :: r))
  | _ :: _ => Raise (TypeError "dict")
  end.

Definition as_record_list (v : PyVal) : result (list (list (string * PyVal))) :=
  match v with
  | PyList l => as_records l
  | _ => Raise (TypeError "list")
  end.

(** [str(l)] for a list of strings. *)
Definition str_of_list (l : list string) : string :=
  "[" +:+ join ", " (map repr l) +:+ "]".

Definition payload_keys (payload : PyVal) : list string :=
  match payload with
  | PyDict d => dict_keys d
  | _ => []
  end.

(** The body of the [try] block. *)
Definition from_payload_try (payload : PyVal) : M Graph :=
  let! nodes := lift (getitem payload "nodes") in
  let! edges := lift (getitem payload "edges") in
  let! nodes := lift (as_record_list nodes) in
  let! edges := lift (as_record_list edges) in
  __init__ nodes edges.

Definition from_payload (payload : list (string * PyVal)) : M Graph :=
  let payload :=
    match dict_get payload "data" with
    | Some inner => inner
    | None => PyDict payload
    end in
  match from_payload_try payload with
  | (Raise (KeyError k), w) =>
      (Raise (ValueError ("Invalid payload. Expected keys 'nodes' and 'edges'. Found "
                          +:+ str_of_list (payload_keys payload))),
       w ++ [ExceptionLogged (KeyError k)])
  | other => other
  end.

(** *** [Graph.__repr__] and [Graph.__eq__] *)
Definition id_at (vs : list VertexObject) (ref : nat) : string :=
  match vs !! ref with
  | Some v => id v
  | None => ""
  end.

Definition __repr__ (g : Graph) : string :=
  let node_ids := map id (vertices g) in
  let edges_repr :=
    join newline
      (map (fun edge => id_at (vertices g) (source edge) +:+ " --> " +:+ id_at (vertices g) (target edge))
           (edges g)) in
  "Graph:" +:+ newline +:+ "Nodes: " +:+ str_of_list node_ids +:+ newline
    +:+ "Connections:" +:+ newline +:+ edges_repr.

(** What [other] may be in [self == other]. *)
Inductive PyObject : Type :=
| ObjGraph (g : Graph)
| ObjOther (v : PyVal).

Definition __eq__ (self : Graph) (other : PyObject) : bool :=
  match other with
  | ObjGraph other => String.eqb (__repr__ self) (__repr__ other)
  | ObjOther _ => false
  end.

(** *** [Graph.topological_sort] *)

Definition cycle_error : exn :=
  ValueError "Graph contains a cycle, cannot perform topological sort".

(** [{node: 0 for node in self.vertices}], keyed by vertex reference. *)
Fixpoint init_state (refs : list nat) : gmap nat nat :=
  match refs with
  | [] => ∅
  | node :: refs' => <[node := 0]> (init_state refs')
  end.

(** [for edge in node.edges: if edge.source == node: dfs(edge.target)], with
    [dfs] the recursive call and [s] what the closure mutates. *)
Fixpoint visit_edges {S} (dfs : nat -> S -> result S) (node : nat) (es : list Edge) (s : S)
    : result S :=
  match es with
  | [] => Ok s
  | edge :: es' =>
      if Nat.eqb (source edge) node
      then rbind (dfs (target edge) s) (visit_edges dfs node es')
      else visit_edges dfs node es' s
  end.

(** The inner [dfs(node)]; [s] is ([state], [sorted_vertices]). *)
Fixpoint dfs (fuel : nat) (vs : list VertexObject) (node : nat)
    (s : gmap nat nat * list nat) : result (gmap nat nat * list nat) :=
  match fuel with
  | 0 => OutOfFuel
  | S fuel' =>
      let '(state, sorted_vertices) := s in
      match state !! node with
      | None => Raise (KeyError "node")
      | Some 1 => Raise cycle_error
      | Some 0 =>
          let state := <[node := 1]> state in
          rbind (visit_edges (dfs fuel' vs) node (node_edges vs node) (state, sorted_vertices))
                (fun '(state, sorted_vertices) =>
                   Ok (<[node := 2]> state, sorted_vertices ++ [node]))
      | Some _ => Ok s
      end
  end.

(** [for node in self.vertices: if state[node] == 0: dfs(node)]. *)
Fixpoint visit_all (fuel : nat) (vs : list VertexObject) (refs : list nat)
    (s : gmap nat nat * list nat) : result (gmap nat nat * list nat) :=
  match refs with
  | [] => Ok s
  | node :: refs' =>
      match fst s !! node with
      | None => Raise (KeyError "node")
      | Some 0 => rbind (dfs fuel vs node s) (visit_all fuel vs refs')
      | Some _ => visit_all fuel vs refs' s
      end
  end.

(** The references of [self.vertices], in order. *)
Definition vertex_refs (g : Graph) : list nat := seq 0 (length (vertices g)).

(** The traversal of [topological_sort], up to the final reversal: the
    closing [state] and [sorted_vertices].  The recursion never goes deeper
    than one call per vertex plus one. *)
Definition topological_traversal (g : Graph) : result (gmap nat nat * list nat) :=
  visit_all (S (length (vertices g))) (vertices g) (vertex_refs g)
            (init_state (vertex_refs g), []).

Definition topological_sort (g : Graph) : result (list nat) :=
  rbind (topological_traversal g) (fun s => Ok (reverse (snd s))).

(** *** [Graph.layered_topological_sort] *)

(** The instance attributes [__init__] and [_build_graph] bind on a graph:
    [_nodes], [_edges], [raw_graph_data], [_graph_data], [top_level_nodes],
    [vertices] and [edges].  The class defines no property and no
    [__getattr__]; its other names are its methods.  The contents of the two
    dictionaries are not tracked. *)
Inductive attribute : Type :=
| AttrRaw (records : list (list (string * PyVal)))
| AttrGraphData
| AttrTopLevel (ids : list PyVal)
| AttrVertices (refs : list nat)
| AttrEdges (es : list Edge).

(** [self.<name>] for a data attribute. *)
Definition getattr (g : Graph) (name : string) : result attribute :=
  if String.eqb name "_nodes" then Ok (AttrRaw (_nodes g))
  else if String.eqb name "_edges" then Ok (AttrRaw (_edges g))
  else if String.eqb name "raw_graph_data" then Ok AttrGraphData
  else if String.eqb name "_graph_data" then Ok AttrGraphData
  else if String.eqb name "top_level_nodes" then Ok (AttrTopLevel (top_level_nodes g))
  else if String.eqb name "vertices" then Ok (AttrVertices (vertex_refs g))
  else if String.eqb name "edges" then Ok (AttrEdges (edges g))
  else Raise (AttributeError name).

(** [while len(layers) <= current_layer: layers.append([])]. *)
Definition grow_layers (layers : list (list nat)) (current_layer : nat) : list (list nat) :=
  layers ++ replicate (S current_layer - length layers) [].

(** The inner [dfs(node, current_layer)]; [s] is ([state], [layers], the
    vertex objects, whose [layer] the traversal sets). *)
Fixpoint layered_dfs (fuel : nat) (current_layer : nat) (node : nat)
    (s : gmap nat nat * list (list nat) * list VertexObject)
    : result (gmap nat nat * list (list nat) * list VertexObject) :=
  match fuel with
  | 0 => OutOfFuel
  | S fuel' =>
      let '(state, layers, vs) := s in
      match state !! node with
      | None => Raise (KeyError "node")
      | Some 1 => Raise cycle_error
      | Some 0 =>
          let state := <[node := 1]> state in
          rbind (visit_edges (layered_dfs fuel' (current_layer + 1)) node (node_edges vs node)
                             (state, layers, vs))
                (fun '(state, layers, vs) =>
                   let state := <[node := 2]> state in
                   let layers := grow_layers layers current_layer in
                   let layers := alter (fun l => l ++ [node]) current_layer layers in
                   Ok (state, layers, alter (set_layer current_layer) node vs))
      | Some _ => Ok s
      end
  end.

Fixpoint layered_visit_all (fuel : nat) (refs : list nat)
    (s : gmap nat nat * list (list nat) * list VertexObject)
    : result (gmap nat nat * list (list nat) * list VertexObject) :=
  match refs with
  | [] => Ok s
  | node :: refs' =>
      match fst (fst s) !! node with
      | None => Raise (KeyError "node")
      | Some 0 => rbind (layered_dfs fuel 0 node s) (layered_visit_all fuel refs')
      | Some _ => layered_visit_all fuel refs' s
      end
  end.

(** The body of the method once [self.nodes] has given the collection
    [nodes] it iterates over: the layers, and the vertex objects with their
    [layer] set. *)
Definition layered_topological_sort_over (nodes : list nat) (vs : list VertexObject)
    : result (list (list nat) * list VertexObject) :=
  rbind (layered_visit_all (S (length nodes)) nodes (init_state nodes, [], vs))
        (fun '(_, layers, vs) => Ok (layers, vs)).

(** The method reads [self.nodes], for the state dictionary and again for the
    outer loop. *)
Definition layered_topological_sort (g : Graph) : result (list (list nat) * list VertexObject) :=
  rbind (getattr g "nodes") (fun nodes =>
  match nodes with
  | AttrVertices refs => layered_topological_sort_over refs (vertices g)
  | _ => Raise (TypeError "not a collection of vertices")
  end).

End Engine.

(** ** The queries of [Graph] *)

(** *** [Graph.get_nodes_with_target]: the sources of the edges whose target
    is [node], in edge order. *)
Definition get_nodes_with_target (g : Graph) (node : nat) : list nat :=
  map source (filter (λ edge, target edge = node) (edges g)).

(** [if neighbor not in neighbors: neighbors[neighbor] = 0] followed by
    [neighbors[neighbor] += 1]. *)
Definition count_neighbor (neighbor : nat) (neighbors : gmap nat nat) : gmap nat nat :=
  let neighbors :=
    match neighbors !! neighbor with
    | None => <[neighbor := 0]> neighbors
    | Some _ => neighbors
    end in
  alter S neighbor neighbors.

(** The loop of [get_node_neighbors] over [self.edges]. *)
Fixpoint get_node_neighbors_loop (node : nat) (es : list Edge) (neighbors : gmap nat nat)
    : gmap nat nat :=
  match es with
  | [] => neighbors
  | edge :: es' =>
      if Nat.eqb (source edge) node
      then get_node_neighbors_loop node es' (count_neighbor (target edge) neighbors)
      else if Nat.eqb (target edge) node
           then get_node_neighbors_loop node es' (count_neighbor (source edge) neighbors)
           else get_node_neighbors_loop node es' neighbors
  end.

(** *** [Graph.get_node_neighbors]: for each vertex joined to [node] by an
    edge, the number of such edges. *)
Definition get_node_neighbors (g : Graph) (node : nat) : gmap nat nat :=
  get_node_neighbors_loop node (edges g) ∅.

(** [l += v] on a list of values: the elements of a list, the characters of
    a string, the keys of a dictionary; anything else is not iterable. *)
Definition extend (l : list PyVal) (v : PyVal) : result (list PyVal) :=
  match v with
  | PyList k => Ok (l ++ k)
  | PyStr s => Ok (l ++ map (λ c, PyStr (String c EmptyString)) (list_ascii_of_string s))
  | PyDict d => Ok (l ++ map PyStr (dict_keys d))
  | _ => Raise (TypeError "not iterable")
  end.

(** [node_type in node_types] for a string and a list of values. *)
Definition str_in (s : string) (l : list PyVal) : bool :=
  existsb (λ x, match x with PyStr s' => String.eqb s' s | _ => false end) l.

(** *** [Graph.get_children_by_node_type], with [node_data] the value of
    [node.data]. *)
Definition get_children_by_node_type (node_data : PyVal) (node : nat) (node_type : string)
    : result (list nat) :=
  rbind (getitem node_data "type") (fun declared =>
  let node_types := [declared] in
  rbind (match node_data with
         | PyDict d =>
             match dict_get d "node" with
             | Some inner => rbind (getitem inner "base_classes") (extend node_types)
             | None => Ok node_types
             end
         | _ => Ok node_types
         end) (fun node_types =>
  Ok (if str_in node_type node_types then [node] else []))).

(** ** Example inputs

    Raw records in the shape the constructor reads, used to run the engine on
    concrete graphs. *)
Definition raw_node (node_id node_type : string) : list (string * PyVal) :=
  [("id", PyStr node_id);
   ("data", PyDict [("type", PyStr node_type);
                    ("node", PyDict [("template", PyDict [("_type", PyStr node_type)])])])].

Definition raw_link (src tgt : string) : list (string * PyVal) :=
  [("source", PyStr src); ("target", PyStr tgt)].

Definition sample_type_map : gmap string VertexClass :=
  <["OpenAI" := LLMVertex]> (<["JsonToolkit" := ToolkitVertex]> ∅).

Definition sample_file_tools : gset string := {["JsonSpec"]}.

Definition sample_params (v : VertexObject) : list (string * ParamVal) :=
  [("name", ParamRaw (PyStr (id v)))].

Definition sample_repr (s : string) : string := "'" +:+ s +:+ "'".

(** [Graph(nodes, edges)] with the sample externals and a normalizer that
    leaves flat flows as they are. *)
Definition sample_graph (nodes edges : list (list (string * PyVal))) : M Graph :=
  __init__ sample_type_map sample_file_tools (fun flow => flow) sample_params nodes edges.

Definition chain_nodes : list (list (string * PyVal)) :=
  [raw_node "A" "a"; raw_node "B" "b"; raw_node "C" "c"].

Definition chain_edges : list (list (string * PyVal)) :=
  [raw_link "A" "B"; raw_link "B" "C"].

(** Two language models and two toolkits, the last model last. *)
Definition agents_nodes : list (list (string * PyVal)) :=
  [raw_node "OpenAI-1" "OpenAI"; raw_node "JsonToolkit-1" "JsonToolkit";
   raw_node "JsonToolkit-2" "JsonToolkit"; raw_node "OpenAI-2" "OpenAI"].

Definition agents_edges : list (list (string * PyVal)) :=
  [raw_link "OpenAI-1" "JsonToolkit-1"; raw_link "OpenAI-2" "JsonToolkit-2"].

Definition empty_graph : Graph := mkGraph [] [] [] [] [].

(** The graph A -> B -> C, as the constructor builds it. *)
Definition chain_graph : Graph :=
  Eval vm_compute in
    match sample_graph chain_nodes chain_edges with
    | (Ok g, _) => g
    | _ => empty_graph
    end.

(** The graph with the edges A -> B and A -> C over the same three vertices. *)
Definition fork_graph : Graph :=
  Eval vm_compute in
    match sample_graph chain_nodes [raw_link "A" "B"; raw_link "A" "C"] with
    | (Ok g, _) => g
    | _ => empty_graph
    end.

(** The graph A -> B -> C -> A, as the constructor builds it. *)
Definition cycle_graph : Graph :=
  Eval vm_compute in
    match sample_graph chain_nodes (chain_edges ++ [raw_link "C" "A"]) with
    | (Ok g, _) => g
    | _ => empty_graph
    end.

(** The vertices of the chain before any edge is registered, and the events
    of their construction. *)
Definition chain_vertices : list VertexObject :=
  Eval vm_compute in
    match _build_vertices sample_type_map sample_file_tools [] chain_nodes with
    | (Ok vs, _) => vs
    | _ => []
    end.

Definition chain_log : list event :=
  Eval vm_compute in snd (_build_vertices sample_type_map sample_file_tools [] chain_nodes).

(** ** Vocabulary of the statements *)

(** A raw edge record carrying the string identifiers [src] and [tgt] under
    its "source" and "target" keys. *)
Definition endpoints (edge : list (string * PyVal)) (src tgt : string) : Prop :=
  dict_get edge "source" = Some (PyStr src) ∧ dict_get edge "target" = Some (PyStr tgt).

(** [node_id] is the identifier of some vertex of the collection. *)
Definition known_id (vs : list VertexObject) (node_id : string) : Prop :=
  node_id ∈ map id vs.

(** The endpoints of a built edge are vertices of the collection whose
    identifiers are the ones its raw record names. *)
Definition resolved (vs : list VertexObject) (e : Edge) : Prop :=
  ∃ s t, vs !! source e = Some s ∧ vs !! target e = Some t
         ∧ endpoints (raw_edge e) (id s) (id t).

(** A vertex with further edges registered on it. *)
Definition with_edges (es : list Edge) (v : VertexObject) : VertexObject :=
  mkVertex (vertex_class v) (id v) (vertex_type v) (data v) (edges_of v ++ es)
           (params v) (is_top_level v) (layer v).

(** The registrations the edges [es] make on the vertex [node], in order. *)
Definition incident (node : nat) (es : list Edge) : list Edge :=
  flat_map (λ e, (if Nat.eqb (source e) node then [e] else [])
                 ++ (if Nat.eqb (target e) node then [e] else [])) es.

(** Two states of a vertex object that differ at most in parameters, layer
    and top-level mark. *)
Definition same_shape (v v' : VertexObject) : Prop :=
  vertex_class v' = vertex_class v ∧ id v' = id v
  ∧ vertex_type v' = vertex_type v ∧ edges_of v' = edges_of v.

(** The number of edges of [es] that join [node] and [v], in either
    direction; an edge from [node] to itself counts once, for [v = node]. *)
Definition multiplicity (node v : nat) (es : list Edge) : nat :=
  length (filter (λ e, (source e = node ∧ target e = v)
                       ∨ (source e ≠ node ∧ target e = node ∧ source e = v)) es).

(** The edge was built by looking its endpoints up: each end is the first
    vertex of [vs] with the identifier the raw record names. *)
Definition looked_up (vs : list VertexObject) (e : Edge) : Prop :=
  ∃ src tgt, endpoints (raw_edge e) src tgt
             ∧ get_vertex vs src = Some (source e)
             ∧ get_vertex vs tgt = Some (target e).

(** What construction leaves untouched once a vertex is instantiated. *)
Definition same_record (v v' : VertexObject) : Prop :=
  data v' = data v ∧ is_top_level v' = is_top_level v ∧ layer v' = layer v.

(** The nodes of a variation on the chain whose identifiers contain the
    arrow of the textual representation. *)
Definition arrow_nodes : list (list (string * PyVal)) :=
  [raw_node "A" "a"; raw_node "B --> C" "b"; raw_node "A --> B" "c";
   raw_node "C" "d"; raw_node "D" "e"].

Definition arrow_edges_1 : list (list (string * PyVal)) :=
  [raw_link "A" "B --> C"; raw_link "A --> B" "D"; raw_link "C" "D"; raw_link "A" "B --> C"].

Definition arrow_edges_2 : list (list (string * PyVal)) :=
  [raw_link "A --> B" "C"; raw_link "A --> B" "D"; raw_link "C" "D"; raw_link "A" "B --> C"].

(** The vertex [_build_vertices] makes of a raw node record: it keeps the
    record, takes its identifier and declared type from it, has the class the
    resolver gives for them, and starts with no edge, no parameter and no
    layer. *)
Definition built_from (VERTEX_TYPE_MAP : gmap string VertexClass) (FILE_TOOLS : gset string)
    (top : list PyVal) (node : list (string * PyVal)) (v : VertexObject) : Prop :=
  data v = node ∧ dict_get node "id" = Some (PyStr (id v))
  ∧ (∃ node_data lc,
       dict_get node "data" = Some node_data
       ∧ getitem node_data "type" = Ok (PyStr (vertex_type v))
       ∧ rbind (rbind (getitem node_data "node") (λ x, getitem x "template"))
               (λ x, getitem x "_type") = Ok (PyStr lc)
       ∧ vertex_class v = _get_vertex_class VERTEX_TYPE_MAP FILE_TOOLS (vertex_type v) lc (id v))
  ∧ edges_of v = [] ∧ params v = [] ∧ layer v = None
  ∧ is_top_level v = str_in (id v) top.

(** The connection lines of the textual representation: one line
    "<source id> --> <target id>" per edge, in edge order. *)
Definition connection_lines (g : Graph) : list string :=
  map (λ edge, id_at (vertices g) (source edge) +:+ " --> "
               +:+ id_at (vertices g) (target edge)) (edges g).

(** The payload [from_payload] works on after the optional outer "data" key
    is unwrapped. *)
Definition unwrapped (payload : list (string * PyVal)) : PyVal :=
  match dict_get payload "data" with
  | Some inner => inner
  | None => PyDict payload
  end.

(** [j] is the last vertex of class [LLMVertex] in collection order. *)
Definition last_llm (vs : list VertexObject) (j : nat) : Prop :=
  (∃ v, vs !! j = Some v ∧ is_LLMVertex (vertex_class v) = true)
  ∧ ∀ k v, j < k → vs !! k = Some v → is_LLMVertex (vertex_class v) = false.

(** The directed edges of the graph's edge collection, as a relation on
    vertex references. *)
Definition edge_rel (g : Graph) (s t : nat) : Prop :=
  ∃ e, e ∈ edges g ∧ source e = s ∧ target e = t.

(** No vertex reaches itself along one or more edges. *)
Definition acyclic (g : Graph) : Prop := ∀ v, ¬ tc (edge_rel g) v v.

(** What [_build_graph] establishes between the two collections: every edge
    joins two vertices of the graph and is registered on both, and a vertex
    holds no edge that is not in the edge collection. *)
Definition cross_registered (g : Graph) : Prop :=
  (∀ e, e ∈ edges g →
        source e < length (vertices g) ∧ target e < length (vertices g)
        ∧ e ∈ node_edges (vertices g) (source e)
        ∧ e ∈ node_edges (vertices g) (target e))
  ∧ (∀ node e, e ∈ node_edges (vertices g) node → e ∈ edges g).

(** [x] stands at a smaller position than [y] in [l]. *)
Definition before {A} (l : list A) (x y : A) : Prop :=
  ∃ i j, l !! i = Some x ∧ l !! j = Some y ∧ i < j.

(** The edges the traversals follow out of a vertex: those registered on it
    of which it is the source. *)
Definition out_edge (vs : list VertexObject) (s t : nat) : Prop :=
  ∃ e, e ∈ node_edges vs s ∧ source e = s ∧ target e = t.

Definition targets_in_range (vs : list VertexObject) : Prop :=
  ∀ s t, out_edge vs s t → t < length vs.

(** How [state] may change over a completed call: a vertex keeps its state
    or goes from unvisited (0) to done (2). *)
Definition advances (st st' : gmap nat nat) : Prop :=
  ∀ v, st' !! v = st !! v ∨ (st !! v = Some 0 ∧ st' !! v = Some 2).

(** The unvisited vertices. *)
Definition white (st : gmap nat nat) : gset nat :=
  filter (λ v, st !! v = Some 0) (dom st).

(** The invariant of the traversal on ([state], [sorted_vertices]): every
    vertex has a state among 0, 1, 2; the list holds the done vertices, once
    each; and every edge out of a done vertex leads to a vertex appended
    earlier. *)
Definition dfs_inv (vs : list VertexObject) (s : gmap nat nat * list nat) : Prop :=
  (∀ v, is_Some (fst s !! v) ↔ v < length vs)
  ∧ (∀ v x, fst s !! v = Some x → x ≤ 2)
  ∧ NoDup (snd s)
  ∧ (∀ v, v ∈ snd s ↔ fst s !! v = Some 2)
  ∧ (∀ u t, fst s !! u = Some 2 → out_edge vs u t → before (snd s) t u).

(** What a call [dfs(node)] started in [s] may do. *)
Definition dfs_post (vs : list VertexObject) (node : nat) (s : gmap nat nat * list nat)
    (r : result (gmap nat nat * list nat)) : Prop :=
  match r with
  | Ok s' =>
      dfs_inv vs s' ∧ advances (fst s) (fst s') ∧ fst s' !! node = Some 2
      ∧ ∃ ext, snd s' = snd s ++ ext
  | Raise e =>
      e = cycle_error
      ∧ ((∃ g, fst s !! g = Some 1 ∧ rtc (out_edge vs) node g) ∨ ∃ v, tc (out_edge vs) v v)
  | OutOfFuel => False
  end.

(** What the loop over the edges [es] of [node] may do. *)
Definition loop_post (vs : list VertexObject) (node : nat) (es : list Edge)
    (s : gmap nat nat * list nat) (r : result (gmap nat nat * list nat)) : Prop :=
  match r with
  | Ok s' =>
      dfs_inv vs s' ∧ advances (fst s) (fst s') ∧ (∃ ext, snd s' = snd s ++ ext)
      ∧ ∀ e, e ∈ es → source e = node → fst s' !! target e = Some 2
  | Raise e =>
      e = cycle_error
      ∧ ((∃ g, fst s !! g = Some 1 ∧ tc (out_edge vs) node g) ∨ ∃ v, tc (out_edge vs) v v)
  | OutOfFuel => False
  end.

(** What the loop over all vertices may do when no vertex is in progress. *)
Definition all_post (vs : list VertexObject) (refs : list nat)
    (s : gmap nat nat * list nat) (r : result (gmap nat nat * list nat)) : Prop :=
  match r with
  | Ok s' =>
      dfs_inv vs s' ∧ advances (fst s) (fst s')
      ∧ ∀ node, node ∈ refs → fst s' !! node = Some 2
  | Raise e => e = cycle_error ∧ ∃ v, tc (out_edge vs) v v
  | OutOfFuel => False
  end.

(** ** Properties *)

(** *** The vertex-class resolver *)

Section Resolver.

Variable VERTEX_TYPE_MAP : gmap string VertexClass.
Variable FILE_TOOLS : gset string.


Lemma split_head_prefix (sep : ascii) (s : string) :
  ∃ rest, s = (split_head sep s +:+ rest) ∧ (rest = "" ∨ ∃ r, rest = String sep r).
Proof.
  induction s as [|c s IH]; simpl.
  - exists "". split; [reflexivity | by left].
  - destruct (Ascii.eqb c sep) eqn:E.
    + apply Ascii.eqb_eq in E. subst c. exists (String sep s).
      split; [reflexivity | right; by exists s].
    + destruct IH as (rest & Hs & Hrest). exists rest. split; [|exact Hrest].
      change (String c s = String c (split_head sep s +:+ rest)). congruence.
Qed.

Lemma split_head_no_sep (sep : ascii) (s : string) :
  sep ∉ list_ascii_of_string (split_head sep s).
Proof.
  induction s as [|c s IH]; simpl.
  - apply not_elem_of_nil.
  - destruct (Ascii.eqb c sep) eqn:E; simpl.
    + apply not_elem_of_nil.
    + apply not_elem_of_cons. split; [|exact IH].
      intros ->. by rewrite Ascii.eqb_refl in E.
Qed.

(** C3. The resolver is a total function of (declared type, declared base
    type, identifier) and of the two read-only registries, and it follows the
    first-match order: the identifier's prefix before the first "-" when it
    is a key of the dispatch table; otherwise the file-tool class when the
    declared type is a file-tool name; otherwise the class registered for the
    declared type; otherwise the class registered for the declared base type;
    otherwise the generic [Vertex]. *)
Theorem get_vertex_class_precedence (node_type node_lc_type node_id : string) :
  let node_name := split_head "-" node_id in
  let cls := _get_vertex_class VERTEX_TYPE_MAP FILE_TOOLS node_type node_lc_type node_id in
  (∃ rest, node_id = (node_name +:+ rest) ∧ (rest = "" ∨ ∃ r, rest = String "-" r))
  ∧ ("-"%char ∉ list_ascii_of_string node_name)
  ∧ (∀ c, VERTEX_TYPE_MAP !! node_name = Some c → cls = c)
  ∧ (VERTEX_TYPE_MAP !! node_name = None → node_type ∈ FILE_TOOLS → cls = FileToolVertex)
  ∧ (VERTEX_TYPE_MAP !! node_name = None → node_type ∉ FILE_TOOLS →
     ∀ c, VERTEX_TYPE_MAP !! node_type = Some c → cls = c)
  ∧ (VERTEX_TYPE_MAP !! node_name = None → node_type ∉ FILE_TOOLS →
     VERTEX_TYPE_MAP !! node_type = None →
     ∀ c, VERTEX_TYPE_MAP !! node_lc_type = Some c → cls = c)
  ∧ (VERTEX_TYPE_MAP !! node_name = None → node_type ∉ FILE_TOOLS →
     VERTEX_TYPE_MAP !! node_type = None → VERTEX_TYPE_MAP !! node_lc_type = None →
     cls = Vertex).
Proof.
  intros node_name cls. subst cls. unfold _get_vertex_class. fold node_name.
  split; [apply split_head_prefix|].
  split; [apply split_head_no_sep|].
  repeat split.
  - intros c ->. reflexivity.
  - intros -> Hin. by rewrite decide_True.
  - intros -> Hnin c ->. by rewrite decide_False.
  - intros -> Hnin -> c ->. by rewrite decide_False.
  - intros -> Hnin -> ->. by rewrite decide_False.
Qed.

End Resolver.

(** *** Connectivity validation *)

Lemma validate_node_false (v : VertexObject) :
  _validate_node v = false ↔ edges_of v = [].
Proof. unfold _validate_node. destruct (edges_of v); cbn; split; intros H; done. Qed.

Lemma validate_nodes_loop_ok (vs : list VertexObject) :
  Forall (λ v, edges_of v ≠ []) vs → _validate_nodes_loop vs = Ok tt.
Proof.
  induction 1 as [|v vs Hv _ IH]; simpl; [reflexivity|].
  destruct (_validate_node v) eqn:E; simpl; [exact IH|].
  apply validate_node_false in E. contradiction.
Qed.

Lemma validate_nodes_loop_first (pre : list VertexObject) (v : VertexObject)
    (post : list VertexObject) :
  Forall (λ u, edges_of u ≠ []) pre → edges_of v = [] →
  _validate_nodes_loop (pre ++ v :: post)
  = Raise (ValueError (vertex_type v +:+ " is not connected to any other components")).
Proof.
  intros Hpre Hv. induction Hpre as [|u pre Hu _ IH]; simpl.
  - apply validate_node_false in Hv. by rewrite Hv.
  - destruct (_validate_node u) eqn:E; simpl; [exact IH|].
    apply validate_node_false in E. contradiction.
Qed.

(** The first vertex without an incident edge, when there is one. *)
Lemma first_disconnected (vs : list VertexObject) :
  Exists (λ v, edges_of v = []) vs →
  ∃ pre v post, vs = pre ++ v :: post ∧ Forall (λ u, edges_of u ≠ []) pre ∧ edges_of v = [].
Proof.
  induction vs as [|u vs IH]; intros H; [by apply Exists_nil in H|].
  destruct (edges_of u) as [|e es] eqn:E.
  - exists [], u, vs. by repeat split.
  - apply Exists_cons in H as [H|H]; [congruence|].
    destruct (IH H) as (pre & v & post & -> & Hpre & Hv).
    exists (u :: pre), v, post. repeat split; [|exact Hv].
    constructor; [congruence | exact Hpre].
Qed.

Lemma validate_nodes_loop_raises (vs : list VertexObject) (e : exn) :
  _validate_nodes_loop vs = Raise e → Exists (λ v, edges_of v = []) vs.
Proof.
  induction vs as [|u vs IH]; simpl; [discriminate|].
  destruct (_validate_node u) eqn:E; simpl.
  - intros H. apply Exists_cons_tl. by apply IH.
  - intros _. apply Exists_cons_hd. by apply validate_node_false.
Qed.

(** C4. A graph with exactly one vertex passes validation whatever its
    edges.  With two or more vertices, validation raises exactly when some
    vertex has no incident edge, and the error is the one for the first such
    vertex in collection order, named by its declared type. *)
Theorem validate_nodes_connectivity (vs : list VertexObject) :
  (length vs = 1 → _validate_nodes vs = Ok tt)
  ∧ (2 ≤ length vs →
     ((∃ e, _validate_nodes vs = Raise e) ↔ Exists (λ v, edges_of v = []) vs)
     ∧ (Forall (λ v, edges_of v ≠ []) vs → _validate_nodes vs = Ok tt)
     ∧ (∀ pre v post, vs = pre ++ v :: post →
          Forall (λ u, edges_of u ≠ []) pre → edges_of v = [] →
          _validate_nodes vs
          = Raise (ValueError (vertex_type v +:+ " is not connected to any other components")))).
Proof.
  split.
  - intros H. unfold _validate_nodes. by rewrite H.
  - intros Hlen. unfold _validate_nodes.
    assert (Nat.eqb (length vs) 1 = false) as -> by (apply Nat.eqb_neq; lia).
    repeat split.
    + intros [e He]. by eapply validate_nodes_loop_raises.
    + intros H. destruct (first_disconnected vs H) as (pre & v & post & -> & Hpre & Hv).
      eexists. by apply validate_nodes_loop_first.
    + apply validate_nodes_loop_ok.
    + intros pre v post -> Hpre Hv. by apply validate_nodes_loop_first.
Qed.

Section EmptyGraph.

Variable VERTEX_TYPE_MAP : gmap string VertexClass.
Variable FILE_TOOLS : gset string.
Variable process_flow :
  list (list (string * PyVal)) * list (list (string * PyVal)) ->
  list (list (string * PyVal)) * list (list (string * PyVal)).
Variable _build_params : VertexObject -> list (string * ParamVal).

(** C10. On the empty vertex collection validation raises nothing, and
    building a graph from no node and no edge completes with the empty graph;
    the disconnected-vertex error needs at least two vertices. *)
Theorem empty_graph_accepted (top : list PyVal) :
  _validate_nodes [] = Ok tt
  ∧ _build_graph VERTEX_TYPE_MAP FILE_TOOLS _build_params top [] []
    = (Ok (mkGraph top [] [] [] []), [])
  ∧ (∀ nodes edges, process_flow (nodes, edges) = ([], []) →
       __init__ VERTEX_TYPE_MAP FILE_TOOLS process_flow _build_params nodes edges
       = (Ok (mkGraph (collect_top_level nodes) [] [] [] []), []))
  ∧ (∀ vs e, _validate_nodes vs = Raise e → 2 ≤ length vs).
Proof.
  repeat split.
  - intros nodes edges H. unfold __init__. by rewrite H.
  - intros vs e. unfold _validate_nodes.
    destruct vs as [|u [|u' vs]]; simpl; try discriminate. intros _. lia.
Qed.

End EmptyGraph.

(** *** Reading a payload *)

Section Payload.

Variable VERTEX_TYPE_MAP : gmap string VertexClass.
Variable FILE_TOOLS : gset string.
Variable process_flow :
  list (list (string * PyVal)) * list (list (string * PyVal)) ->
  list (list (string * PyVal)) * list (list (string * PyVal)).
Variable _build_params : VertexObject -> list (string * ParamVal).
Variable repr : string -> string.


(** C9. [from_payload] works on the payload unwrapped from an optional outer
    "data" key.  When that dictionary lacks "nodes" or "edges", the call
    raises the invalid-payload error listing the keys the dictionary does
    have; the only event is the logging of the [KeyError], so no vertex class
    has been instantiated. *)
Theorem from_payload_missing_keys (payload d : list (string * PyVal)) :
  unwrapped payload = PyDict d →
  dict_get d "nodes" = None ∨ dict_get d "edges" = None →
  ∃ k, (k = "nodes" ∨ k = "edges") ∧ dict_get d k = None
       ∧ from_payload VERTEX_TYPE_MAP FILE_TOOLS process_flow _build_params repr payload
         = (Raise (ValueError ("Invalid payload. Expected keys 'nodes' and 'edges'. Found "
                               +:+ str_of_list repr (dict_keys d))),
            [ExceptionLogged (KeyError k)]).
Proof.
  intros Hun Hmiss. unfold from_payload. fold (unwrapped payload). rewrite Hun.
  unfold from_payload_try. simpl getitem.
  destruct (dict_get d "nodes") as [nodes|] eqn:Hn.
  - destruct Hmiss as [Hmiss|Hmiss]; [discriminate|].
    exists "edges". rewrite Hmiss. simpl. by repeat split; [right|..].
  - exists "nodes". simpl. by repeat split; [left|..].
Qed.

End Payload.

(** *** Monadic plumbing *)

Lemma bind_Ok_inv {A B} (m : M A) (f : A → M B) (b : B) (w : list event) :
  bind m f = (Ok b, w) →
  ∃ a w1 w2, m = (Ok a, w1) ∧ f a = (Ok b, w2) ∧ w = w1 ++ w2.
Proof.
  unfold bind. destruct m as [[a| |] w1]; try discriminate.
  destruct (f a) as [r w2] eqn:E. intros [= -> <-]. by exists a, w1, w2.
Qed.

Lemma rbind_Ok_inv {A B} (r : result A) (f : A → result B) (b : B) :
  rbind r f = Ok b → ∃ a, r = Ok a ∧ f a = Ok b.
Proof. destruct r; simpl; try discriminate. intros H. by eexists. Qed.

(** *** Looking vertices up by identifier *)

Lemma get_vertex_from_None (base : nat) (vs : list VertexObject) (node_id : string) :
  get_vertex_from base vs node_id = None ↔ ¬ known_id vs node_id.
Proof.
  unfold known_id. revert base. induction vs as [|v vs IH]; intros base; simpl.
  - split; [intros _; apply not_elem_of_nil | done].
  - destruct (String.eqb (id v) node_id) eqn:E.
    + apply String.eqb_eq in E. split; [discriminate|]. intros H. exfalso. apply H.
      rewrite E. apply list_elem_of_here.
    + apply String.eqb_neq in E. rewrite IH, not_elem_of_cons. split; [|tauto].
      intros H. split; [congruence | exact H].
Qed.

Lemma get_vertex_from_Some (base : nat) (vs : list VertexObject) (node_id : string) (i : nat) :
  get_vertex_from base vs node_id = Some i →
  ∃ v, base ≤ i ∧ vs !! (i - base) = Some v ∧ id v = node_id.
Proof.
  revert base. induction vs as [|v vs IH]; intros base; simpl; [discriminate|].
  destruct (String.eqb (id v) node_id) eqn:E.
  - apply String.eqb_eq in E. intros [= <-]. exists v. rewrite Nat.sub_diag. by repeat split.
  - intros H. destruct (IH _ H) as (u & Hle & Hu & Hid). exists u.
    repeat split; [lia | | exact Hid].
    replace (i - base) with (S (i - S base)) by lia. exact Hu.
Qed.

Lemma get_vertex_Some (vs : list VertexObject) (node_id : string) (i : nat) :
  get_vertex vs node_id = Some i → ∃ v, vs !! i = Some v ∧ id v = node_id.
Proof.
  intros H. destruct (get_vertex_from_Some _ _ _ _ H) as (v & _ & Hv & Hid).
  rewrite Nat.sub_0_r in Hv. by exists v.
Qed.

(** *** Building edges *)

Lemma getitem_str (d : list (string * PyVal)) (k s : string) :
  dict_get d k = Some (PyStr s) → rbind (getitem (PyDict d) k) as_str = Ok s.
Proof. intros H. simpl. by rewrite H. Qed.

Lemma getitem_str_inv (d : list (string * PyVal)) (k s : string) :
  rbind (getitem (PyDict d) k) as_str = Ok s → dict_get d k = Some (PyStr s).
Proof.
  simpl. destruct (dict_get d k) as [[]|]; simpl; try discriminate. by intros [= ->].
Qed.

Lemma build_edge_Ok (vs : list VertexObject) (edge : list (string * PyVal)) (e : Edge) :
  _build_edge vs edge = Ok e → resolved vs e ∧ raw_edge e = edge.
Proof.
  unfold _build_edge. intros H.
  apply rbind_Ok_inv in H as (src & Hsrc & H).
  apply rbind_Ok_inv in H as (tgt & Htgt & H).
  apply getitem_str_inv in Hsrc. apply getitem_str_inv in Htgt.
  destruct (get_vertex vs src) as [s|] eqn:Hs; [|discriminate].
  destruct (get_vertex vs tgt) as [t|] eqn:Ht; [|discriminate].
  injection H as <-. simpl.
  apply get_vertex_Some in Hs as (vs_s & Hs & <-).
  apply get_vertex_Some in Ht as (vs_t & Ht & <-).
  split; [|reflexivity]. exists vs_s, vs_t. by repeat split.
Qed.

Lemma build_edge_endpoints (vs : list VertexObject) (edge : list (string * PyVal))
    (src tgt : string) :
  endpoints edge src tgt →
  match get_vertex vs src, get_vertex vs tgt with
  | None, _ => _build_edge vs edge = Raise (ValueError ("Source node " +:+ src +:+ " not found"))
  | Some _, None => _build_edge vs edge = Raise (ValueError ("Target node " +:+ tgt +:+ " not found"))
  | Some s, Some t => _build_edge vs edge = Ok (mkEdge s t edge)
  end.
Proof.
  intros [Hs Ht]. unfold _build_edge.
  rewrite (getitem_str _ _ _ Hs). cbn [rbind]. rewrite (getitem_str _ _ _ Ht). cbn [rbind].
  by destruct (get_vertex vs src), (get_vertex vs tgt).
Qed.

Lemma build_edges_from_Ok (vs : list VertexObject) (raw : list (list (string * PyVal)))
    (acc es : list Edge) :
  _build_edges_from vs raw acc = Ok es →
  Forall (resolved vs) acc →
  Forall (resolved vs) es ∧ map raw_edge es = map raw_edge acc ++ raw.
Proof.
  revert acc. induction raw as [|edge raw IH]; intros acc; simpl.
  - intros [= <-] Hacc. by rewrite app_nil_r.
  - intros H Hacc. apply rbind_Ok_inv in H as (e & He & H).
    apply build_edge_Ok in He as [He Hraw].
    destruct (IH _ H) as [Hes Hmap].
    + apply Forall_app. split; [exact Hacc | by constructor].
    + split; [exact Hes|]. rewrite Hmap, map_app. simpl. rewrite Hraw.
      by rewrite <- app_assoc.
Qed.

(** The first raw edge with an unknown endpoint decides the error. *)
Lemma build_edges_from_unknown (vs : list VertexObject) (raw : list (list (string * PyVal)))
    (acc : list Edge) :
  Forall (λ edge, ∃ src tgt, endpoints edge src tgt) raw →
  Exists (λ edge, ∃ src tgt, endpoints edge src tgt
                             ∧ (¬ known_id vs src ∨ ¬ known_id vs tgt)) raw →
  ∃ edge src tgt, edge ∈ raw ∧ endpoints edge src tgt
    ∧ ((¬ known_id vs src
        ∧ _build_edges_from vs raw acc
          = Raise (ValueError ("Source node " +:+ src +:+ " not found")))
       ∨ (¬ known_id vs tgt
          ∧ _build_edges_from vs raw acc
            = Raise (ValueError ("Target node " +:+ tgt +:+ " not found")))).
Proof.
  intros Hall. revert acc. induction Hall as [|edge raw (src & tgt & Hend) Hall IH];
    intros acc Hex; [by apply Exists_nil in Hex|].
  pose proof (build_edge_endpoints vs edge src tgt Hend) as Hb.
  simpl. destruct (get_vertex vs src) as [s|] eqn:Hs.
  - destruct (get_vertex vs tgt) as [t|] eqn:Ht.
    + rewrite Hb. cbn [rbind].
      apply Exists_cons in Hex as [(src' & tgt' & [Hs' Ht'] & Hun)|Hex].
      * destruct Hend as [Hs0 Ht0]. rewrite Hs0 in Hs'. rewrite Ht0 in Ht'.
        injection Hs' as <-. injection Ht' as <-.
        destruct Hun as [Hun|Hun]; apply (proj2 (get_vertex_from_None 0 _ _)) in Hun;
          unfold get_vertex in *; congruence.
      * destruct (IH (acc ++ [mkEdge s t edge]) Hex) as (edge' & src' & tgt' & Hin & Hend' & Hres).
        exists edge', src', tgt'. split; [by apply list_elem_of_further|]. by split.
    + exists edge, src, tgt. split; [apply list_elem_of_here|]. split; [exact Hend|].
      right. rewrite Hb. split; [|reflexivity]. by apply get_vertex_from_None in Ht.
  - exists edge, src, tgt. split; [apply list_elem_of_here|]. split; [exact Hend|].
    left. rewrite Hb. split; [|reflexivity]. by apply get_vertex_from_None in Hs.
Qed.

(** *** Cross-registration *)

Lemma with_edges_nil (v : VertexObject) : with_edges [] v = v.
Proof. destruct v. unfold with_edges. simpl. by rewrite app_nil_r. Qed.

Lemma with_edges_app (es1 es2 : list Edge) (v : VertexObject) :
  with_edges es2 (with_edges es1 v) = with_edges (es1 ++ es2) v.
Proof. unfold with_edges. simpl. by rewrite app_assoc. Qed.

Lemma add_edge_with_edges (e : Edge) (v : VertexObject) : add_edge e v = with_edges [e] v.
Proof. reflexivity. Qed.

Lemma alter_add_edge_lookup (e : Edge) (k : nat) (vs : list VertexObject) (i : nat) :
  alter (add_edge e) k vs !! i = with_edges (if Nat.eqb k i then [e] else []) <$> vs !! i.
Proof.
  destruct (Nat.eqb_spec k i) as [->|Hne].
  - by rewrite list_lookup_alter_eq.
  - rewrite list_lookup_alter_ne by done.
    destruct (vs !! i); simpl; [|reflexivity]. by rewrite with_edges_nil.
Qed.

Lemma register_edges_lookup (es : list Edge) (vs : list VertexObject) (i : nat) :
  register_edges es vs !! i = with_edges (incident i es) <$> vs !! i.
Proof.
  revert vs. induction es as [|e es IH]; intros vs; simpl.
  - destruct (vs !! i); simpl; [|reflexivity]. by rewrite with_edges_nil.
  - rewrite IH, !alter_add_edge_lookup.
    destruct (vs !! i) as [v|]; simpl; [|reflexivity].
    by rewrite !with_edges_app, app_assoc.
Qed.

Lemma register_edges_length (es : list Edge) (vs : list VertexObject) :
  length (register_edges es vs) = length vs.
Proof.
  revert vs. induction es as [|e es IH]; intros vs; simpl; [reflexivity|].
  by rewrite IH, !length_alter.
Qed.

Lemma elem_of_incident (node : nat) (es : list Edge) (e : Edge) :
  e ∈ incident node es ↔ e ∈ es ∧ (source e = node ∨ target e = node).
Proof.
  unfold incident. rewrite list_elem_of_In, in_flat_map. split.
  - intros (x & Hx & Hin). apply list_elem_of_In in Hx. apply in_app_or in Hin.
    destruct Hin as [Hin|Hin].
    + destruct (Nat.eqb (source x) node) eqn:E; [|destruct Hin].
      apply Nat.eqb_eq in E. destruct Hin as [->|[]]. by split; [|left].
    + destruct (Nat.eqb (target x) node) eqn:E; [|destruct Hin].
      apply Nat.eqb_eq in E. destruct Hin as [->|[]]. by split; [|right].
  - intros [Hin Hnode]. exists e. split; [by apply list_elem_of_In|].
    apply in_or_app. destruct Hnode as [<-|<-]; [left|right];
      rewrite Nat.eqb_refl; by left.
Qed.

(** *** Parameter propagation *)

Lemma dict_get_set {V} (d : list (string * V)) (k : string) (x : V) :
  dict_get (dict_set d k x) k = Some x.
Proof.
  induction d as [|[k' v] d IH]; simpl.
  - by rewrite String.eqb_refl.
  - destruct (String.eqb k' k) eqn:E; simpl.
    + by rewrite String.eqb_refl.
    + by rewrite E.
Qed.

Section Propagation.

Variable _build_params : VertexObject -> list (string * ParamVal).

(** The first loop of [_build_node_params]: it never raises, runs the
    preparation of the vertices in order, one event each, replaces every
    vertex's parameters by what it prepared, and leaves in [llm_node] the last
    [LLMVertex] met, or the initial value when there is none. *)
Lemma prepare_params_from_spec (vs : list VertexObject) (base : nat) (acc : option nat) :
  ∃ r, prepare_params_from _build_params base vs acc
       = (Ok (map (λ v, set_params (_build_params v) v) vs, r),
          map ParamsPrepared (seq base (length vs)))
       ∧ ((r = acc ∧ Forall (λ v, is_LLMVertex (vertex_class v) = false) vs)
          ∨ (∃ j, r = Some (base + j) ∧ last_llm vs j)).
Proof.
  revert base acc. induction vs as [|v vs IH]; intros base acc; simpl.
  - exists acc. split; [reflexivity|]. left. by split.
  - destruct (IH (S base) (if is_LLMVertex (vertex_class v) then Some base else acc))
      as (r & -> & Hr). simpl. exists r. split; [by rewrite app_nil_r|].
    destruct Hr as [[-> Hall]|(j & -> & [(u & Hu & Hllm) Hlast])].
    + destruct (is_LLMVertex (vertex_class v)) eqn:E.
      * right. exists 0. split; [f_equal; lia|]. split; [by exists v|].
        intros k u Hk Hu. destruct k as [|k]; [lia|]. simpl in Hu.
        eapply (proj1 (Forall_lookup _ _) Hall); eauto.
      * left. split; [reflexivity|]. by constructor.
    + right. exists (S j). split; [f_equal; lia|]. split; [by exists u|].
      intros k w Hk Hw. destruct k as [|k]; [lia|]. simpl in Hw.
      apply (Hlast k w); [lia | exact Hw].
Qed.

Lemma last_llm_unique (vs : list VertexObject) (j j' : nat) :
  last_llm vs j → last_llm vs j' → j = j'.
Proof.
  intros [(v & Hv & Hllm) Hlast] [(v' & Hv' & Hllm') Hlast'].
  destruct (Nat.lt_trichotomy j j') as [Hlt|[->|Hlt]]; [|reflexivity|].
  - rewrite (Hlast _ _ Hlt Hv') in Hllm'. discriminate.
  - rewrite (Hlast' _ _ Hlt Hv) in Hllm. discriminate.
Qed.

Lemma last_llm_exists (vs : list VertexObject) :
  Exists (λ v, is_LLMVertex (vertex_class v) = true) vs → ∃ j, last_llm vs j.
Proof.
  intros Hex. destruct (prepare_params_from_spec vs 0 None) as (r & _ & [[_ Hall]|(j & _ & Hj)]).
  - exfalso. apply Exists_exists in Hex as (v & Hin & Hv).
    rewrite Forall_forall in Hall. rewrite (Hall v Hin) in Hv. discriminate.
  - by exists j.
Qed.

Lemma inject_llm_lookup (llm_node : nat) (vs : list VertexObject) (i : nat) :
  inject_llm llm_node vs !! i
  = (λ node, if is_ToolkitVertex (vertex_class node)
             then set_params (dict_set (params node) "llm" (ParamVertex llm_node)) node
             else node) <$> vs !! i.
Proof. unfold inject_llm. apply list_lookup_fmap. Qed.

Lemma Forall2_same_shape_map (f : VertexObject → VertexObject) (vs : list VertexObject) :
  (∀ v, same_shape v (f v)) → Forall2 same_shape vs (map f vs).
Proof. intros Hf. induction vs; simpl; constructor; auto. Qed.

Lemma same_shape_prepare (v : VertexObject) :
  same_shape v (set_params (_build_params v) v).
Proof. by repeat split. Qed.

Lemma same_shape_inject (llm_node : nat) (v : VertexObject) :
  same_shape v (if is_ToolkitVertex (vertex_class v)
                then set_params (dict_set (params v) "llm" (ParamVertex llm_node)) v
                else v).
Proof. destruct (is_ToolkitVertex (vertex_class v)); by repeat split. Qed.

Lemma same_shape_trans (u v w : VertexObject) :
  same_shape u v → same_shape v w → same_shape u w.
Proof. unfold same_shape. intros (?&?&?&?) (?&?&?&?). repeat split; congruence. Qed.

(** What [_build_node_params] returns, in closed form. *)
Lemma build_node_params_result (vs : list VertexObject) :
  ∃ r, _build_node_params _build_params vs
       = (Ok (match r with
              | Some llm_node =>
                  inject_llm llm_node (map (λ v, set_params (_build_params v) v) vs)
              | None => map (λ v, set_params (_build_params v) v) vs
              end),
          map ParamsPrepared (seq 0 (length vs)))
       ∧ ((r = None ∧ Forall (λ v, is_LLMVertex (vertex_class v) = false) vs)
          ∨ (∃ j, r = Some j ∧ last_llm vs j)).
Proof.
  destruct (prepare_params_from_spec vs 0 None) as (r & Heq & Hr).
  exists r. split.
  - unfold _build_node_params. rewrite Heq. unfold bind. cbn [fst snd].
    destruct r; unfold ret; by rewrite app_nil_r.
  - destruct Hr as [Hr|(j & -> & Hj)]; [by left|]. right. by exists j.
Qed.

Lemma build_node_params_shape (vs : list VertexObject) :
  ∃ vs', _build_node_params _build_params vs
         = (Ok vs', map ParamsPrepared (seq 0 (length vs)))
         ∧ Forall2 same_shape vs vs'.
Proof.
  destruct (build_node_params_result vs) as (r & -> & _). eexists. split; [reflexivity|].
  destruct r as [llm_node|].
  - unfold inject_llm. rewrite map_map. apply Forall2_same_shape_map. intros v.
    eapply same_shape_trans; [apply same_shape_prepare | apply same_shape_inject].
  - apply Forall2_same_shape_map, same_shape_prepare.
Qed.

(** C5. Parameter propagation never raises; it runs the preparation step of
    every vertex exactly once, in collection order; vertices keep their
    class, identifier, type and edges; and when the graph has a vertex of
    class [LLMVertex], every [ToolkitVertex] ends with a reference to one and
    the same vertex under the key "llm", namely the last [LLMVertex] of the
    collection.  Vertices that are not toolkits keep the parameters they
    prepared. *)
Theorem build_node_params_propagates (vs : list VertexObject) :
  ∃ vs', _build_node_params _build_params vs
         = (Ok vs', map ParamsPrepared (seq 0 (length vs)))
    ∧ Forall2 same_shape vs vs'
    ∧ (Exists (λ v, is_LLMVertex (vertex_class v) = true) vs →
       ∃ j, last_llm vs j
            ∧ ∀ i v', vs' !! i = Some v' → is_ToolkitVertex (vertex_class v') = true →
                      dict_get (params v') "llm" = Some (ParamVertex j))
    ∧ (∀ i v v', vs !! i = Some v → vs' !! i = Some v' →
                 is_ToolkitVertex (vertex_class v) = false →
                 params v' = _build_params v).
Proof.
  destruct (build_node_params_shape vs) as (vs' & Heq & Hshape).
  exists vs'. split; [exact Heq|]. split; [exact Hshape|].
  destruct (build_node_params_result vs) as (r & Heq' & Hr).
  rewrite Heq in Heq'. injection Heq' as ->. split.
  - intros Hex. destruct Hr as [[_ Hall]|(j & -> & Hj)].
    + exfalso. apply Exists_exists in Hex as (v & Hin & Hv).
      rewrite Forall_forall in Hall. rewrite (Hall v Hin) in Hv. discriminate.
    + exists j. split; [exact Hj|]. intros i v'. rewrite inject_llm_lookup, list_lookup_fmap.
      destruct (vs !! i) as [v|]; simpl; [|discriminate].
      destruct (is_ToolkitVertex (vertex_class v)) eqn:E; intros [= <-]; simpl.
      * intros _. apply dict_get_set.
      * rewrite E. discriminate.
  - intros i v v' Hv. destruct r as [llm_node|].
    + rewrite inject_llm_lookup, list_lookup_fmap, Hv. simpl. intros [= <-] ->. reflexivity.
    + rewrite list_lookup_fmap, Hv. simpl. by intros [= <-] _.
Qed.

End Propagation.

(** *** What a built graph satisfies *)

Section Built.

Variable VERTEX_TYPE_MAP : gmap string VertexClass.
Variable FILE_TOOLS : gset string.
Variable _build_params : VertexObject -> list (string * ParamVal).


Lemma build_vertex_no_edges (top : list PyVal) (node : list (string * PyVal))
    (v : VertexObject) (w : list event) :
  _build_vertex VERTEX_TYPE_MAP FILE_TOOLS top node = (Ok v, w) → edges_of v = [].
Proof.
  unfold _build_vertex. intros H.
  do 4 (apply bind_Ok_inv in H as (? & ? & ? & _ & H & _)).
  apply bind_Ok_inv in H as (v' & ? & ? & Hv' & H & _).
  unfold new_vertex in Hv'.
  apply bind_Ok_inv in Hv' as (? & ? & ? & _ & Hv' & _).
  injection Hv' as <- _. injection H as <- _. reflexivity.
Qed.

Lemma build_vertices_from_no_edges (top : list PyVal) (raw : list (list (string * PyVal)))
    (acc vs : list VertexObject) (w : list event) :
  _build_vertices_from VERTEX_TYPE_MAP FILE_TOOLS top raw acc = (Ok vs, w) →
  Forall (λ v, edges_of v = []) acc → Forall (λ v, edges_of v = []) vs.
Proof.
  revert acc w. induction raw as [|node raw IH]; intros acc w; simpl.
  - by intros [= <- _].
  - intros H Hacc. apply bind_Ok_inv in H as (v & w1 & w2 & Hv & H & _).
    apply (IH _ _ H). apply Forall_app. split; [exact Hacc|].
    constructor; [|constructor]. by eapply build_vertex_no_edges.
Qed.

(** The stages of a successful [_build_graph]. *)
Lemma build_graph_inv (top : list PyVal) (raw_nodes raw_edges : list (list (string * PyVal)))
    (g : Graph) (w : list event) :
  _build_graph VERTEX_TYPE_MAP FILE_TOOLS _build_params top raw_nodes raw_edges = (Ok g, w) →
  ∃ vs0 w0,
    _build_vertices VERTEX_TYPE_MAP FILE_TOOLS top raw_nodes = (Ok vs0, w0)
    ∧ _build_edges vs0 raw_edges = Ok (edges g)
    ∧ Forall2 same_shape (register_edges (edges g) vs0) (vertices g)
    ∧ _validate_nodes (vertices g) = Ok tt
    ∧ top_level_nodes g = top ∧ _nodes g = raw_nodes ∧ _edges g = raw_edges.
Proof.
  unfold _build_graph. intros H.
  apply bind_Ok_inv in H as (vs0 & w0 & w1 & Hvs0 & H & _).
  apply bind_Ok_inv in H as (es & w2 & w3 & Hes & H & _).
  apply bind_Ok_inv in H as (vs' & w4 & w5 & Hvs' & H & _).
  apply bind_Ok_inv in H as ([] & w6 & w7 & Hval & H & _).
  injection H as <- _. simpl.
  unfold lift in Hes, Hval. injection Hes as Hes _. injection Hval as Hval _.
  destruct (build_node_params_shape _build_params (register_edges es vs0)) as (vs'' & Heq & Hshape).
  rewrite Heq in Hvs'. injection Hvs' as <- _.
  exists vs0, w0. by repeat split.
Qed.

Lemma built_vertex_lookup (top : list PyVal) (raw_nodes raw_edges : list (list (string * PyVal)))
    (g : Graph) (w : list event) :
  _build_graph VERTEX_TYPE_MAP FILE_TOOLS _build_params top raw_nodes raw_edges = (Ok g, w) →
  ∃ vs0 w0,
    _build_vertices VERTEX_TYPE_MAP FILE_TOOLS top raw_nodes = (Ok vs0, w0)
    ∧ _build_edges vs0 raw_edges = Ok (edges g)
    ∧ length (vertices g) = length vs0
    ∧ (∀ i v0, vs0 !! i = Some v0 →
         ∃ v, vertices g !! i = Some v ∧ id v = id v0 ∧ vertex_class v = vertex_class v0
              ∧ edges_of v = incident i (edges g)).
Proof.
  intros H. destruct (build_graph_inv _ _ _ _ _ H) as (vs0 & w0 & Hvs0 & Hes & Hshape & _).
  exists vs0, w0. split; [exact Hvs0|]. split; [exact Hes|].
  pose proof (Forall2_length _ _ _ Hshape) as Hlen. rewrite register_edges_length in Hlen.
  split; [by symmetry|].
  intros i v0 Hv0.
  assert (register_edges (edges g) vs0 !! i = Some (with_edges (incident i (edges g)) v0)) as Hreg.
  { by rewrite register_edges_lookup, Hv0. }
  destruct (Forall2_lookup_l _ _ _ _ _ Hshape Hreg) as (v & Hv & Hc & Hid & _ & Hedges).
  exists v. split; [exact Hv|]. split; [exact Hid|]. split; [exact Hc|].
  rewrite Hedges. simpl.
  unfold _build_vertices in Hvs0.
  pose proof (build_vertices_from_no_edges _ _ _ _ _ Hvs0 (Forall_nil_2 _)) as Hno.
  rewrite Forall_lookup in Hno. by rewrite (Hno _ _ Hv0).
Qed.

Lemma build_graph_resolved (top : list PyVal)
    (raw_nodes raw_edges : list (list (string * PyVal))) (g : Graph) (w : list event) :
  _build_graph VERTEX_TYPE_MAP FILE_TOOLS _build_params top raw_nodes raw_edges = (Ok g, w) →
  Forall (resolved (vertices g)) (edges g).
Proof.
  intros H. destruct (built_vertex_lookup _ _ _ _ _ H) as (vs0 & w0 & _ & Hes & _ & Hlook).
  unfold _build_edges in Hes.
  destruct (build_edges_from_Ok _ _ _ _ Hes (Forall_nil_2 _)) as [Hres _].
  eapply Forall_impl; [exact Hres|]. intros e (s & t & Hs & Ht & Hend).
  destruct (Hlook _ _ Hs) as (s' & Hs' & Hids & _).
  destruct (Hlook _ _ Ht) as (t' & Ht' & Hidt & _).
  exists s', t'. rewrite Hids, Hidt. split; [exact Hs'|]. split; [exact Ht'|]. exact Hend.
Qed.

(** A graph built by [_build_graph] is cross-registered. *)
Lemma build_graph_cross_registered (top : list PyVal)
    (raw_nodes raw_edges : list (list (string * PyVal))) (g : Graph) (w : list event) :
  _build_graph VERTEX_TYPE_MAP FILE_TOOLS _build_params top raw_nodes raw_edges = (Ok g, w) →
  cross_registered g.
Proof.
  intros H. pose proof (build_graph_resolved _ _ _ _ _ H) as Hres.
  destruct (built_vertex_lookup _ _ _ _ _ H) as (vs0 & w0 & _ & _ & Hlen & Hlook).
  rewrite Forall_forall in Hres. split.
  - intros e He. destruct (Hres e He) as (s & t & Hs & Ht & _).
    split; [by eapply lookup_lt_Some|]. split; [by eapply lookup_lt_Some|].
    assert (∀ node v, vertices g !! node = Some v → edges_of v = incident node (edges g)) as Hinc.
    { intros node v Hv. destruct (lookup_lt_is_Some_2 vs0 node) as [v0 Hv0].
      - rewrite <- Hlen. by eapply lookup_lt_Some.
      - destruct (Hlook _ _ Hv0) as (v' & Hv' & _ & _ & Hedges). congruence. }
    unfold node_edges. rewrite Hs, Ht, (Hinc _ _ Hs), (Hinc _ _ Ht).
    split; apply elem_of_incident; auto.
  - intros node e. unfold node_edges. destruct (vertices g !! node) as [v|] eqn:Hv.
    + destruct (lookup_lt_is_Some_2 vs0 node) as [v0 Hv0].
      * rewrite <- Hlen. by eapply lookup_lt_Some.
      * destruct (Hlook _ _ Hv0) as (v' & Hv' & _ & _ & Hedges).
        assert (v' = v) as -> by congruence. rewrite Hedges.
        intros Hin. by apply elem_of_incident in Hin as [Hin _].
    + intros Hin. by apply elem_of_nil in Hin.
Qed.

(** C6. Once the vertices are built, if some raw edge names a source or a
    target identifier that no vertex has, [_build_graph] raises, and the
    error names an identifier that is missing from the vertex collection (the
    first one met: a missing source before a missing target, in edge order);
    no graph is returned.  Consequently every edge of a built graph joins two
    vertices of that graph, the ones its raw record names. *)
Theorem build_edges_unknown_endpoint (top : list PyVal)
    (raw_nodes raw_edges : list (list (string * PyVal)))
    (vs : list VertexObject) (w : list event) :
  _build_vertices VERTEX_TYPE_MAP FILE_TOOLS top raw_nodes = (Ok vs, w) →
  Forall (λ edge, ∃ src tgt, endpoints edge src tgt) raw_edges →
  (Exists (λ edge, ∃ src tgt, endpoints edge src tgt
                              ∧ (¬ known_id vs src ∨ ¬ known_id vs tgt)) raw_edges →
   ∃ edge src tgt, edge ∈ raw_edges ∧ endpoints edge src tgt
     ∧ ((¬ known_id vs src
         ∧ _build_graph VERTEX_TYPE_MAP FILE_TOOLS _build_params top raw_nodes raw_edges
           = (Raise (ValueError ("Source node " +:+ src +:+ " not found")), w))
        ∨ (¬ known_id vs tgt
           ∧ _build_graph VERTEX_TYPE_MAP FILE_TOOLS _build_params top raw_nodes raw_edges
             = (Raise (ValueError ("Target node " +:+ tgt +:+ " not found")), w))))
  ∧ (∀ g w', _build_graph VERTEX_TYPE_MAP FILE_TOOLS _build_params top raw_nodes raw_edges
             = (Ok g, w') →
             Forall (resolved (vertices g)) (edges g)
             ∧ Forall (λ e, source e < length (vertices g) ∧ target e < length (vertices g))
                      (edges g)).
Proof.
  intros Hvs Hall. split.
  - intros Hex.
    destruct (build_edges_from_unknown vs raw_edges [] Hall Hex)
      as (edge & src & tgt & Hin & Hend & Hres).
    exists edge, src, tgt. split; [exact Hin|]. split; [exact Hend|].
    destruct Hres as [[Hun Hr]|[Hun Hr]]; [left|right]; (split; [exact Hun|]);
      unfold _build_graph; rewrite Hvs; unfold bind at 1; unfold _build_edges;
      rewrite Hr; simpl; by rewrite app_nil_r.
  - intros g w' H. pose proof (build_graph_resolved _ _ _ _ _ H) as Hres.
    split; [exact Hres|]. eapply Forall_impl; [exact Hres|].
    intros e (s & t & Hs & Ht & _). split; by eapply lookup_lt_Some.
Qed.

Lemma built_ids (top : list PyVal) (raw_nodes raw_edges : list (list (string * PyVal)))
    (g : Graph) (w : list event) :
  _build_graph VERTEX_TYPE_MAP FILE_TOOLS _build_params top raw_nodes raw_edges = (Ok g, w) →
  ∃ vs0 w0,
    _build_vertices VERTEX_TYPE_MAP FILE_TOOLS top raw_nodes = (Ok vs0, w0)
    ∧ _build_edges vs0 raw_edges = Ok (edges g)
    ∧ map id (vertices g) = map id vs0
    ∧ ∀ ref, id_at (vertices g) ref = id_at vs0 ref.
Proof.
  intros H. destruct (built_vertex_lookup _ _ _ _ _ H) as (vs0 & w0 & Hvs0 & Hes & Hlen & Hlook).
  exists vs0, w0. split; [exact Hvs0|]. split; [exact Hes|].
  assert (∀ ref, id <$> vertices g !! ref = id <$> vs0 !! ref) as Hpt.
  { intros ref. destruct (vs0 !! ref) as [v0|] eqn:Hv0.
    - destruct (Hlook _ _ Hv0) as (v & -> & Hid & _). simpl. by rewrite Hid.
    - apply lookup_ge_None in Hv0. rewrite <- Hlen in Hv0.
      apply lookup_ge_None in Hv0. by rewrite Hv0. }
  split.
  - apply list_eq. intros i. rewrite !list_lookup_fmap. apply Hpt.
  - intros ref. unfold id_at. specialize (Hpt ref).
    destruct (vertices g !! ref), (vs0 !! ref); simpl in Hpt; congruence.
Qed.

End Built.

(** *** Textual representation and equality *)

Section Equality.

Variable VERTEX_TYPE_MAP : gmap string VertexClass.
Variable FILE_TOOLS : gset string.
Variable process_flow :
  list (list (string * PyVal)) * list (list (string * PyVal)) ->
  list (list (string * PyVal)) * list (list (string * PyVal)).
Variable repr : string -> string.

(** The representation reads the identifiers of the vertices, in order, and
    the identifiers at the two ends of every edge, in order; nothing else. *)
Lemma repr_ext (g1 g2 : Graph) :
  map id (vertices g1) = map id (vertices g2) →
  map (λ e, (id_at (vertices g1) (source e), id_at (vertices g1) (target e))) (edges g1)
  = map (λ e, (id_at (vertices g2) (source e), id_at (vertices g2) (target e))) (edges g2) →
  __repr__ repr g1 = __repr__ repr g2.
Proof.
  intros Hids Hes. unfold __repr__. rewrite Hids.
  set (fmt := λ p : string * string, fst p +:+ " --> " +:+ snd p).
  assert (map (λ edge, id_at (vertices g1) (source edge) +:+ " --> "
                       +:+ id_at (vertices g1) (target edge)) (edges g1)
          = map (λ edge, id_at (vertices g2) (source edge) +:+ " --> "
                         +:+ id_at (vertices g2) (target edge)) (edges g2)) as Hlines.
  { transitivity (map fmt (map (λ e, (id_at (vertices g1) (source e),
                                      id_at (vertices g1) (target e))) (edges g1))).
    - by rewrite map_map.
    - rewrite Hes. by rewrite map_map. }
  cbv zeta. by rewrite Hlines.
Qed.

Lemma append_cancel (a x y : string) : a +:+ x = a +:+ y → x = y.
Proof. induction a as [|c a IH]; simpl; [done|]. intros [= H]. by apply IH. Qed.

(** The representation, spelled out: the header, the list of the vertex
    identifiers in collection order as Python prints a list of strings, and
    the connection lines joined by newlines. *)
Lemma repr_canonical (g : Graph) :
  __repr__ repr g
  = "Graph:" +:+ newline +:+ "Nodes: "
    +:+ ("[" +:+ join ", " (map repr (map id (vertices g))) +:+ "]") +:+ newline
    +:+ "Connections:" +:+ newline +:+ join newline (connection_lines g).
Proof. reflexivity. Qed.

(** Between graphs with the same identifier list, the representations agree
    exactly when the connection texts agree. *)
Lemma repr_same_ids (g1 g2 : Graph) :
  map id (vertices g1) = map id (vertices g2) →
  (__repr__ repr g1 = __repr__ repr g2
   ↔ join newline (connection_lines g1) = join newline (connection_lines g2)).
Proof.
  intros Hids. rewrite !repr_canonical, Hids. split.
  - intros H. by do 7 apply append_cancel in H.
  - by intros ->.
Qed.

(** C7. [g1 == g2] holds exactly when the two representations are the same
    string, and comparing with anything that is not a graph gives [False].
    The representation is the canonical text: the header, the ordered list of
    vertex identifiers, and one line "<source id> --> <target id>" per edge
    in edge order; so between graphs with the same identifier list equality
    is decided by the connection lines, and the chain A -> B -> C differs
    from the graph with edges A -> B and A -> C.  Two graphs built from the
    same node and edge input compare equal even when their vertex objects
    differ in state (here, in the parameters each construction prepared):
    equality is by identifiers and connections, not by the objects. *)
Theorem graph_eq_iff_repr :
  (∀ g1 g2, __eq__ repr g1 (ObjGraph g2) = true ↔ __repr__ repr g1 = __repr__ repr g2)
  ∧ (∀ g v, __eq__ repr g (ObjOther v) = false)
  ∧ (∀ g1 g2,
       map id (vertices g1) = map id (vertices g2) →
       map (λ e, (id_at (vertices g1) (source e), id_at (vertices g1) (target e))) (edges g1)
       = map (λ e, (id_at (vertices g2) (source e), id_at (vertices g2) (target e))) (edges g2) →
       __eq__ repr g1 (ObjGraph g2) = true)
  ∧ (∀ (params1 params2 : VertexObject → list (string * ParamVal)) nodes edges g1 g2 w1 w2,
       __init__ VERTEX_TYPE_MAP FILE_TOOLS process_flow params1 nodes edges = (Ok g1, w1) →
       __init__ VERTEX_TYPE_MAP FILE_TOOLS process_flow params2 nodes edges = (Ok g2, w2) →
       __eq__ repr g1 (ObjGraph g2) = true)
  ∧ (∀ g, __repr__ repr g
          = "Graph:" +:+ newline +:+ "Nodes: "
            +:+ ("[" +:+ join ", " (map repr (map id (vertices g))) +:+ "]") +:+ newline
            +:+ "Connections:" +:+ newline
            +:+ join newline
                  (map (λ edge, id_at (vertices g) (source edge) +:+ " --> "
                                +:+ id_at (vertices g) (target edge)) (edges g)))
  ∧ (∀ g1 g2,
       map id (vertices g1) = map id (vertices g2) →
       (__eq__ repr g1 (ObjGraph g2) = true
        ↔ join newline (connection_lines g1) = join newline (connection_lines g2)))
  ∧ __eq__ repr chain_graph (ObjGraph fork_graph) = false
  ∧ __eq__ repr chain_graph (ObjGraph chain_graph) = true.
Proof.
  assert (∀ g1 g2, __eq__ repr g1 (ObjGraph g2) = true
                   ↔ __repr__ repr g1 = __repr__ repr g2) as Hiff.
  { intros g1 g2. unfold __eq__. apply String.eqb_eq. }
  split; [exact Hiff|]. split; [reflexivity|]. split; [|split; [|split; [|split; [|split]]]].
  - intros g1 g2 Hids Hes. apply Hiff. by apply repr_ext.
  - intros params1 params2 nodes edges g1 g2 w1 w2 H1 H2. apply Hiff.
    unfold __init__ in H1, H2.
    destruct (built_ids _ _ _ _ _ _ _ _ H1) as (vs1 & u1 & Hvs1 & Hes1 & Hids1 & Hat1).
    destruct (built_ids _ _ _ _ _ _ _ _ H2) as (vs2 & u2 & Hvs2 & Hes2 & Hids2 & Hat2).
    rewrite Hvs1 in Hvs2. injection Hvs2 as <- _.
    rewrite Hes1 in Hes2. injection Hes2 as Hes.
    apply repr_ext; [congruence|]. rewrite <- Hes.
    apply map_ext. intros e. by rewrite !Hat1, !Hat2.
  - intros g. apply repr_canonical.
  - intros g1 g2 Hids. rewrite Hiff. by apply repr_same_ids.
  - destruct (__eq__ repr chain_graph (ObjGraph fork_graph)) eqn:E; [|reflexivity].
    apply Hiff in E. apply (repr_same_ids chain_graph fork_graph eq_refl) in E.
    vm_compute in E. discriminate.
  - apply Hiff. reflexivity.
Qed.

End Equality.

(** *** The depth-first traversal *)

Arguments dfs : simpl never.
Arguments layered_dfs : simpl never.

Lemma advances_refl (st : gmap nat nat) : advances st st.
Proof. intros v. by left. Qed.

Lemma advances_trans (a b c : gmap nat nat) :
  advances a b → advances b c → advances a c.
Proof.
  intros H1 H2 v. destruct (H1 v) as [E1|[E1 E1']], (H2 v) as [E2|[E2 E2']].
  - left. congruence.
  - right. split; congruence.
  - right. split; congruence.
  - congruence.
Qed.

Lemma advances_done (a b : gmap nat nat) (v : nat) :
  advances a b → a !! v = Some 2 → b !! v = Some 2.
Proof. intros H Hv. destruct (H v) as [E|[E _]]; congruence. Qed.

Lemma advances_gray (a b : gmap nat nat) (v : nat) :
  advances a b → b !! v = Some 1 → a !! v = Some 1.
Proof. intros H Hv. destruct (H v) as [E|[_ E]]; congruence. Qed.

Lemma advances_keeps_gray (a b : gmap nat nat) (v : nat) :
  advances a b → a !! v = Some 1 → b !! v = Some 1.
Proof. intros H Hv. destruct (H v) as [E|[E _]]; congruence. Qed.

Lemma elem_of_white (st : gmap nat nat) (v : nat) : v ∈ white st ↔ st !! v = Some 0.
Proof.
  unfold white. rewrite elem_of_filter, elem_of_dom. split; [tauto|].
  intros H. split; [exact H | by eexists].
Qed.

Lemma advances_white (a b : gmap nat nat) : advances a b → white b ⊆ white a.
Proof.
  intros H v. rewrite !elem_of_white. intros Hv.
  destruct (H v) as [E|[_ E]]; congruence.
Qed.

Lemma white_gray_lt (st : gmap nat nat) (node : nat) :
  st !! node = Some 0 → size (white (<[node := 1]> st)) < size (white st).
Proof.
  intros H. apply subset_size. split.
  - intros v. rewrite !elem_of_white. destruct (decide (node = v)) as [->|Hne].
    + rewrite lookup_insert_eq. discriminate.
    + by rewrite lookup_insert_ne.
  - intros Hsub. specialize (Hsub node). rewrite !elem_of_white in Hsub.
    rewrite lookup_insert_eq in Hsub. specialize (Hsub H). discriminate.
Qed.

Lemma before_app_l {A} (l k : list A) (x y : A) : before l x y → before (l ++ k) x y.
Proof.
  intros (i & j & Hi & Hj & Hlt). exists i, j.
  split; [by apply lookup_app_l_Some|]. split; [by apply lookup_app_l_Some | exact Hlt].
Qed.

Lemma before_snoc {A} (l : list A) (x y : A) : x ∈ l → before (l ++ [y]) x y.
Proof.
  intros Hx. apply list_elem_of_lookup in Hx as [i Hi].
  exists i, (length l). split; [by apply lookup_app_l_Some|].
  split; [|by eapply lookup_lt_Some].
  rewrite lookup_app_r by lia. by rewrite Nat.sub_diag.
Qed.

Section Traversal.

Variable vs : list VertexObject.
Hypothesis Hrange : targets_in_range vs.

Lemma white_bound (s : gmap nat nat * list nat) :
  dfs_inv vs s → size (white (fst s)) ≤ length vs.
Proof.
  intros (Hdom & _).
  assert (dom (fst s) = set_seq 0 (length vs)) as Hd.
  { apply set_eq. intros v. rewrite elem_of_dom, elem_of_set_seq, Hdom. lia. }
  transitivity (size (dom (fst s))).
  - apply subseteq_size. intros v. rewrite elem_of_white, elem_of_dom. by eexists.
  - rewrite Hd. by rewrite size_set_seq.
Qed.

(** Marking an unvisited vertex as in progress keeps the invariant. *)
Lemma dfs_inv_gray (st : gmap nat nat) (so : list nat) (node : nat) :
  dfs_inv vs (st, so) → st !! node = Some 0 → dfs_inv vs (<[node := 1]> st, so).
Proof.
  intros (Hdom & Hval & Hnd & Hso & Hord) Hnode. simpl in *.
  assert (∀ v, <[node := 1]> st !! v = Some 2 ↔ st !! v = Some 2) as H2.
  { intros v. destruct (decide (node = v)) as [->|Hne].
    - rewrite lookup_insert_eq, Hnode. split; discriminate.
    - by rewrite lookup_insert_ne. }
  repeat split; simpl.
  - intros Hv. apply Hdom. destruct (decide (node = v)) as [->|Hne]; [by eexists|].
    by rewrite lookup_insert_ne in Hv.
  - intros Hv. destruct (decide (node = v)) as [->|Hne].
    + rewrite lookup_insert_eq. by eexists.
    + rewrite lookup_insert_ne by done. by apply Hdom.
  - intros v x. destruct (decide (node = v)) as [->|Hne].
    + rewrite lookup_insert_eq. intros [= <-]. lia.
    + rewrite lookup_insert_ne by done. apply Hval.
  - exact Hnd.
  - intros Hv. apply H2. by apply Hso.
  - intros Hv. apply Hso. by apply H2.
  - intros u t Hu. apply Hord. by apply H2.
Qed.

(** Marking an in-progress vertex as done and appending it keeps the
    invariant, once every edge out of it leads to a done vertex. *)
Lemma dfs_inv_done (st : gmap nat nat) (so : list nat) (node : nat) :
  dfs_inv vs (st, so) → st !! node = Some 1 →
  (∀ t, out_edge vs node t → st !! t = Some 2) →
  dfs_inv vs (<[node := 2]> st, so ++ [node]).
Proof.
  intros (Hdom & Hval & Hnd & Hso & Hord) Hnode Hout. simpl in *.
  assert (node ∉ so) as Hnotin.
  { intros Hin. apply Hso in Hin. congruence. }
  repeat split; simpl.
  - intros Hv. apply Hdom. destruct (decide (node = v)) as [->|Hne]; [by eexists|].
    by rewrite lookup_insert_ne in Hv.
  - intros Hv. destruct (decide (node = v)) as [->|Hne].
    + rewrite lookup_insert_eq. by eexists.
    + rewrite lookup_insert_ne by done. by apply Hdom.
  - intros v x. destruct (decide (node = v)) as [->|Hne].
    + rewrite lookup_insert_eq. intros [= <-]. lia.
    + rewrite lookup_insert_ne by done. apply Hval.
  - apply NoDup_app. split; [exact Hnd|]. split; [|apply NoDup_singleton].
    intros x Hx Hx'. apply list_elem_of_singleton in Hx'. by subst.
  - intros Hv. apply elem_of_app in Hv as [Hv|Hv].
    + destruct (decide (node = v)) as [->|Hne]; [by rewrite lookup_insert_eq|].
      rewrite lookup_insert_ne by done. by apply Hso.
    + apply list_elem_of_singleton in Hv as ->. by rewrite lookup_insert_eq.
  - intros Hv. apply elem_of_app. destruct (decide (node = v)) as [->|Hne].
    + right. by apply list_elem_of_singleton.
    + left. apply Hso. by rewrite lookup_insert_ne in Hv.
  - intros u t Hu Hut. destruct (decide (node = u)) as [<-|Hne].
    + apply before_snoc. apply Hso. by apply Hout.
    + rewrite lookup_insert_ne in Hu by done. apply before_app_l. by apply Hord.
Qed.

Lemma dfs_unfold (fuel : nat) (node : nat) (st : gmap nat nat) (so : list nat) :
  dfs (S fuel) vs node (st, so)
  = match st !! node with
    | None => Raise (KeyError "node")
    | Some 0 =>
        rbind (visit_edges (dfs fuel vs) node (node_edges vs node) (<[node := 1]> st, so))
              (λ '(state, sorted_vertices),
                 Ok (<[node := 2]> state, sorted_vertices ++ [node]))
    | Some 1 => Raise cycle_error
    | Some _ => Ok (st, so)
    end.
Proof. reflexivity. Qed.

(** The loop over the edges of a vertex, given what the calls it makes do. *)
Lemma visit_edges_spec (fuel : nat) (node : nat) :
  (∀ t s, size (white (fst s)) < fuel → t < length vs → dfs_inv vs s →
          dfs_post vs t s (dfs fuel vs t s)) →
  ∀ es s, (∀ e, e ∈ es → e ∈ node_edges vs node) →
          size (white (fst s)) < fuel → dfs_inv vs s →
          loop_post vs node es s (visit_edges (dfs fuel vs) node es s).
Proof.
  intros Hdfs. induction es as [|e es IH]; intros s Hes Hfuel Hinv; simpl.
  - split; [exact Hinv|]. split; [apply advances_refl|]. split.
    + exists []. by rewrite app_nil_r.
    + intros e He. by apply elem_of_nil in He.
  - assert (∀ e', e' ∈ es → e' ∈ node_edges vs node) as Hes'.
    { intros e' He'. apply Hes. by apply list_elem_of_further. }
    destruct (Nat.eqb_spec (source e) node) as [Hsrc|Hsrc].
    + assert (out_edge vs node (target e)) as Hout.
      { exists e. split; [apply Hes, list_elem_of_here | by split]. }
      pose proof (Hdfs (target e) s Hfuel (Hrange _ _ Hout) Hinv) as Hcall.
      destruct (dfs fuel vs (target e) s) as [s1|x|]; simpl in *; [| |exact Hcall].
      * destruct Hcall as (Hinv1 & Hadv1 & Hdone1 & ext1 & Hext1).
        assert (size (white (fst s1)) < fuel) as Hfuel1.
        { eapply Nat.le_lt_trans; [|exact Hfuel]. by apply subseteq_size, advances_white. }
        specialize (IH s1 Hes' Hfuel1 Hinv1).
        destruct (visit_edges (dfs fuel vs) node es s1) as [s2|x|]; simpl in *; [| |exact IH].
        -- destruct IH as (Hinv2 & Hadv2 & [ext2 Hext2] & Htgt).
           split; [exact Hinv2|]. split; [by eapply advances_trans|]. split.
           ++ exists (ext1 ++ ext2). by rewrite Hext2, Hext1, app_assoc.
           ++ intros e' He' Hsrc'. apply elem_of_cons in He' as [->|He'].
              ** by eapply advances_done.
              ** by apply Htgt.
        -- destruct IH as (-> & [(g & Hg & Hreach)|Hcyc]); (split; [reflexivity|]).
           ++ left. exists g. split; [by eapply advances_gray | exact Hreach].
           ++ by right.
      * destruct Hcall as (-> & [(g & Hg & Hreach)|Hcyc]); (split; [reflexivity|]).
        -- left. exists g. split; [exact Hg|]. eapply tc_rtc_r; [by apply tc_once | exact Hreach].
        -- by right.
    + specialize (IH s Hes' Hfuel Hinv).
      destruct (visit_edges (dfs fuel vs) node es s) as [s2|x|]; simpl in *; [|exact IH|exact IH].
      destruct IH as (Hinv2 & Hadv2 & Hext2 & Htgt).
      split; [exact Hinv2|]. split; [exact Hadv2|]. split; [exact Hext2|].
      intros e' He' Hsrc'. apply elem_of_cons in He' as [->|He']; [contradiction|].
      by apply Htgt.
Qed.

(** [dfs(node)]: with fuel above the number of unvisited vertices it
    completes or raises the cycle error, and the error has a cause. *)
Lemma dfs_spec (fuel : nat) :
  ∀ node s, size (white (fst s)) < fuel → node < length vs → dfs_inv vs s →
            dfs_post vs node s (dfs fuel vs node s).
Proof.
  induction fuel as [|fuel IH]; intros node [st so] Hfuel Hnode Hinv; [simpl in Hfuel; lia|].
  rewrite dfs_unfold. simpl in Hfuel.
  pose proof Hinv as (Hdom & Hval & Hnd & Hso & Hord). simpl in *.
  destruct (st !! node) as [x|] eqn:Hst; [|apply Hdom in Hnode as [? ?]; congruence].
  destruct x as [|[|x]].
  - pose proof (dfs_inv_gray _ _ _ Hinv Hst) as Hinv1.
    pose proof (white_gray_lt _ _ Hst) as Hlt.
    assert (size (white (<[node := 1]> st)) < fuel) as Hfuel1 by lia.
    pose proof (visit_edges_spec fuel node IH (node_edges vs node) (<[node := 1]> st, so)
                  (λ e He, He) Hfuel1 Hinv1) as Hloop.
    destruct (visit_edges (dfs fuel vs) node (node_edges vs node) (<[node := 1]> st, so))
      as [[st2 so2]|x|]; simpl in *; [| |exact Hloop].
    + destruct Hloop as (Hinv2 & Hadv2 & [ext Hext] & Htgt).
      assert (st2 !! node = Some 1) as Hgray.
      { eapply advances_keeps_gray; [exact Hadv2|]. by rewrite lookup_insert_eq. }
      split.
      { apply dfs_inv_done; [exact Hinv2 | exact Hgray |].
        intros t (e & He & Hsrc & <-). by apply Htgt. }
      split.
      { intros v. destruct (decide (node = v)) as [<-|Hne].
        - right. split; [exact Hst | by rewrite lookup_insert_eq].
        - rewrite lookup_insert_ne by done.
          destruct (Hadv2 v) as [E|[E E']]; rewrite lookup_insert_ne in E by done.
          + by left.
          + right. by split. }
      split; [by rewrite lookup_insert_eq|].
      exists (ext ++ [node]). by rewrite Hext, app_assoc.
    + destruct Hloop as (-> & [(g & Hg & Hreach)|Hcyc]); (split; [reflexivity|]).
      * destruct (decide (node = g)) as [<-|Hne].
        -- right. by exists node.
        -- left. exists g. rewrite lookup_insert_ne in Hg by done.
           split; [exact Hg | by apply tc_rtc].
      * by right.
  - split; [reflexivity|]. left. exists node. split; [exact Hst | apply rtc_refl].
  - pose proof (Hval _ _ Hst) as Hle. assert (x = 0) as -> by lia.
    split; [exact Hinv|]. split; [apply advances_refl|]. split; [exact Hst|].
    exists []. by rewrite app_nil_r.
Qed.

(** The loop over all vertices, started with no vertex in progress. *)
Lemma visit_all_spec (refs : list nat) :
  ∀ s, (∀ node, node ∈ refs → node < length vs) → dfs_inv vs s →
       (∀ v, fst s !! v ≠ Some 1) →
       all_post vs refs s (visit_all (S (length vs)) vs refs s).
Proof.
  induction refs as [|node refs IH]; intros s Hrefs Hinv Hnogray; simpl.
  - split; [exact Hinv|]. split; [apply advances_refl|].
    intros node Hnode. by apply elem_of_nil in Hnode.
  - assert (∀ r, r ∈ refs → r < length vs) as Hrefs'.
    { intros r Hr. apply Hrefs. by apply list_elem_of_further. }
    assert (node < length vs) as Hnode by apply Hrefs, list_elem_of_here.
    pose proof Hinv as (Hdom & Hval & _).
    destruct (fst s !! node) as [x|] eqn:Hst; [|apply Hdom in Hnode as [? ?]; congruence].
    destruct x as [|x].
    + assert (size (white (fst s)) < S (length vs)) as Hfuel.
      { pose proof (white_bound s Hinv). lia. }
      pose proof (dfs_spec _ node s Hfuel Hnode Hinv) as Hcall.
      destruct (dfs (S (length vs)) vs node s) as [s1|x|]; simpl in *; [| |exact Hcall].
      * destruct Hcall as (Hinv1 & Hadv1 & Hdone1 & _).
        assert (∀ v, fst s1 !! v ≠ Some 1) as Hnogray1.
        { intros v Hv. apply (Hnogray v). by eapply advances_gray. }
        specialize (IH s1 Hrefs' Hinv1 Hnogray1).
        destruct (visit_all (S (length vs)) vs refs s1) as [s2|x|]; simpl in *;
          [|exact IH|exact IH].
        destruct IH as (Hinv2 & Hadv2 & Hall).
        split; [exact Hinv2|]. split; [by eapply advances_trans|].
        intros r Hr. apply elem_of_cons in Hr as [->|Hr]; [|by apply Hall].
        by eapply advances_done.
      * destruct Hcall as (-> & [(g & Hg & _)|Hcyc]); [by apply Hnogray in Hg|].
        by split.
    + specialize (IH s Hrefs' Hinv Hnogray).
      destruct (visit_all (S (length vs)) vs refs s) as [s2|y|]; simpl in *;
        [|exact IH|exact IH].
      destruct IH as (Hinv2 & Hadv2 & Hall).
      split; [exact Hinv2|]. split; [exact Hadv2|].
      intros r Hr. apply elem_of_cons in Hr as [->|Hr]; [|by apply Hall].
      eapply advances_done; [exact Hadv2|].
      pose proof (Hval _ _ Hst) as Hle. pose proof (Hnogray node) as Hng.
      rewrite Hst in *. destruct x as [|[|x]]; [congruence|reflexivity|lia].
Qed.

End Traversal.

(** *** Topological sort *)

Lemma init_state_lookup (refs : list nat) (v : nat) :
  init_state refs !! v = if decide (v ∈ refs) then Some 0 else None.
Proof.
  induction refs as [|r refs IH]; cbn [init_state].
  - rewrite lookup_empty. by rewrite decide_False by apply not_elem_of_nil.
  - destruct (decide (r = v)) as [->|Hne].
    + rewrite lookup_insert_eq. by rewrite decide_True by apply list_elem_of_here.
    + rewrite lookup_insert_ne by done. rewrite IH.
      destruct (decide (v ∈ refs)) as [Hin|Hnin].
      * by rewrite decide_True by by apply list_elem_of_further.
      * rewrite decide_False; [done|]. rewrite not_elem_of_cons. by split.
Qed.

Lemma init_state_inv (vs : list VertexObject) :
  dfs_inv vs (init_state (seq 0 (length vs)), []).
Proof.
  assert (∀ v, init_state (seq 0 (length vs)) !! v
               = if decide (v < length vs) then Some 0 else None) as Hlook.
  { intros v. rewrite init_state_lookup.
    destruct (decide (v ∈ seq 0 (length vs))) as [Hin|Hnin];
      rewrite elem_of_seq in *; [rewrite decide_True by lia|rewrite decide_False by lia]; done. }
  repeat split; simpl.
  - rewrite Hlook. destruct (decide (v < length vs)); [done|]. by intros [? ?].
  - intros Hv. rewrite Hlook. rewrite decide_True by done. by eexists.
  - intros v x. rewrite Hlook. destruct (decide (v < length vs)); [|discriminate].
    intros [= <-]. lia.
  - apply NoDup_nil_2.
  - intros Hv. by apply elem_of_nil in Hv.
  - rewrite Hlook. destruct (decide (v < length vs)); discriminate.
  - intros u t. rewrite Hlook. destruct (decide (u < length vs)); discriminate.
Qed.

Lemma out_edge_edge_rel (g : Graph) (s t : nat) :
  cross_registered g → out_edge (vertices g) s t ↔ edge_rel g s t.
Proof.
  intros [Hreg Hown]. split.
  - intros (e & He & Hs & Ht). exists e. split; [by eapply Hown | by split].
  - intros (e & He & Hs & Ht). exists e. destruct (Hreg e He) as (_ & _ & Hin & _).
    rewrite Hs in Hin. by split.
Qed.

Lemma cross_registered_range (g : Graph) :
  cross_registered g → targets_in_range (vertices g).
Proof.
  intros Hg s t Hst. apply (out_edge_edge_rel g s t Hg) in Hst as (e & He & _ & <-).
  destruct Hg as [Hreg _]. by destruct (Hreg e He) as (_ & Ht & _).
Qed.

Lemma tc_impl {A} (R1 R2 : relation A) (x y : A) :
  (∀ a b, R1 a b → R2 a b) → tc R1 x y → tc R2 x y.
Proof.
  intros Hsub. induction 1 as [a b Hab|a b c Hab _ IH].
  - apply tc_once. by apply Hsub.
  - eapply tc_l; [by apply Hsub | exact IH].
Qed.

(** A list that places the target of every edge before its source, without
    repetition, leaves no room for a cycle. *)
Lemma ordered_no_cycle {A} (R : relation A) (post : list A) :
  NoDup post → (∀ s t, R s t → before post t s) → ∀ v, ¬ tc R v v.
Proof.
  intros Hnd Hord.
  assert (∀ a b, tc R a b → before post b a) as Htc.
  { induction 1 as [a b Hab|a b c Hab _ IH]; [by apply Hord|].
    destruct (Hord _ _ Hab) as (i & j & Hi & Hj & Hij).
    destruct IH as (i' & j' & Hi' & Hj' & Hij').
    assert (j' = i) as -> by (by eapply NoDup_lookup).
    exists i', j. split; [exact Hi'|]. split; [exact Hj | lia]. }
  intros v Hv. destruct (Htc _ _ Hv) as (i & j & Hi & Hj & Hij).
  assert (i = j) by (by eapply NoDup_lookup). lia.
Qed.

Lemma before_reverse {A} (l : list A) (x y : A) : before l x y → before (reverse l) y x.
Proof.
  intros (i & j & Hi & Hj & Hij).
  pose proof (lookup_lt_Some _ _ _ Hi) as Hli. pose proof (lookup_lt_Some _ _ _ Hj) as Hlj.
  exists (length l - S j), (length l - S i).
  split; [|split; [|lia]]; apply reverse_lookup_Some; (split; [|lia]).
  - by replace (length l - S (length l - S j)) with j by lia.
  - by replace (length l - S (length l - S i)) with i by lia.
Qed.

(** What the traversal of [topological_sort] does on a cross-registered
    graph: it ends with every vertex appended once, targets before sources,
    or it raises the cycle error on a graph that has a cycle. *)
Lemma topological_traversal_spec (g : Graph) :
  cross_registered g →
  match topological_traversal g with
  | Ok s =>
      NoDup (snd s) ∧ (∀ v, v ∈ snd s ↔ v < length (vertices g))
      ∧ ∀ s' t, edge_rel g s' t → before (snd s) t s'
  | Raise e => e = cycle_error ∧ ∃ v, tc (edge_rel g) v v
  | OutOfFuel => False
  end.
Proof.
  intros Hg. pose proof (cross_registered_range g Hg) as Hr.
  pose proof (visit_all_spec (vertices g) Hr (vertex_refs g)
                (init_state (vertex_refs g), [])) as Hall.
  unfold topological_traversal.
  destruct (visit_all (S (length (vertices g))) (vertices g) (vertex_refs g)
              (init_state (vertex_refs g), [])) as [s|e|]; simpl in *.
  - destruct Hall as ((Hdom & Hval & Hnd & Hso & Hord) & _ & Hdone).
    + intros node Hnode. apply elem_of_seq in Hnode. lia.
    + apply init_state_inv.
    + intros v. simpl. unfold vertex_refs. rewrite init_state_lookup.
      destruct (decide (v ∈ seq 0 (length (vertices g)))); discriminate.
    + split; [exact Hnd|]. split.
      * intros v. rewrite Hso. split.
        -- intros Hv. apply Hdom. by eexists.
        -- intros Hv. apply Hdone. apply elem_of_seq. lia.
      * intros s' t Hst. apply Hord; [|by apply out_edge_edge_rel].
        apply Hdone. destruct Hst as (e & He & <- & _). destruct Hg as [Hreg _].
        destruct (Hreg e He) as (Hs & _). apply elem_of_seq. lia.
  - destruct Hall as (-> & v & Hv).
    + intros node Hnode. apply elem_of_seq in Hnode. lia.
    + apply init_state_inv.
    + intros v. simpl. unfold vertex_refs. rewrite init_state_lookup.
      destruct (decide (v ∈ seq 0 (length (vertices g)))); discriminate.
    + split; [reflexivity|]. exists v. eapply tc_impl; [|exact Hv].
      intros a b. by apply out_edge_edge_rel.
  - apply Hall.
    + intros node Hnode. apply elem_of_seq in Hnode. lia.
    + apply init_state_inv.
    + intros v. simpl. unfold vertex_refs. rewrite init_state_lookup.
      destruct (decide (v ∈ seq 0 (length (vertices g)))); discriminate.
Qed.

(** C1. On an acyclic graph, as [_build_graph] leaves it, [topological_sort]
    returns a list that is the reverse of the order in which the traversal
    appended the vertices; the list has as many entries as the graph has
    vertices and holds every vertex exactly once; and for every edge of the
    edge collection the source stands before the target (in the append order,
    the target before the source). *)
Theorem topological_sort_acyclic (g : Graph) :
  cross_registered g → acyclic g →
  ∃ state sorted_vertices,
    topological_traversal g = Ok (state, sorted_vertices)
    ∧ topological_sort g = Ok (reverse sorted_vertices)
    ∧ length (reverse sorted_vertices) = length (vertices g)
    ∧ reverse sorted_vertices ≡ₚ vertex_refs g
    ∧ (∀ e, e ∈ edges g → before (reverse sorted_vertices) (source e) (target e))
    ∧ (∀ e, e ∈ edges g → before sorted_vertices (target e) (source e)).
Proof.
  intros Hg Hacyc. pose proof (topological_traversal_spec g Hg) as Hspec.
  unfold topological_sort.
  destruct (topological_traversal g) as [[state sorted_vertices]|e|]; simpl in *.
  - destruct Hspec as (Hnd & Hmem & Hord).
    exists state, sorted_vertices. split; [reflexivity|]. split; [reflexivity|].
    assert (sorted_vertices ≡ₚ vertex_refs g) as Hperm.
    { apply NoDup_Permutation; [exact Hnd | apply NoDup_seq |].
      intros v. rewrite Hmem. unfold vertex_refs. rewrite elem_of_seq. lia. }
    assert (∀ e, e ∈ edges g → before sorted_vertices (target e) (source e)) as Hpost.
    { intros e He. apply Hord. by exists e. }
    split; [|split; [|split]].
    + rewrite length_reverse, Hperm. unfold vertex_refs. by rewrite length_seq.
    + by rewrite reverse_Permutation.
    + intros e He. by apply before_reverse, Hpost.
    + exact Hpost.
  - destruct Hspec as (_ & v & Hv). by apply Hacyc in Hv.
  - destruct Hspec.
Qed.

(** [topological_sort] raises the cycle error exactly on the graphs that
    have a cycle, and returns an order exactly on the acyclic ones; it does
    nothing else. *)
Theorem topological_sort_cycle_iff (g : Graph) :
  cross_registered g →
  (topological_sort g = Raise cycle_error ↔ ∃ v, tc (edge_rel g) v v)
  ∧ ((∃ l, topological_sort g = Ok l) ↔ acyclic g)
  ∧ ((∃ l, topological_sort g = Ok l) ∨ topological_sort g = Raise cycle_error).
Proof.
  intros Hg. pose proof (topological_traversal_spec g Hg) as Hspec.
  unfold topological_sort.
  destruct (topological_traversal g) as [[state sorted_vertices]|e|]; simpl in *.
  - destruct Hspec as (Hnd & Hmem & Hord).
    pose proof (ordered_no_cycle (edge_rel g) sorted_vertices Hnd Hord) as Hacyc.
    split; [|split].
    + split; [discriminate|]. intros [v Hv]. by apply Hacyc in Hv.
    + split; [by intros _ | by eexists].
    + left. by eexists.
  - destruct Hspec as (-> & v & Hv). split; [|split].
    + split; [by exists v | reflexivity].
    + split; [by intros [l Hl] | intros Hacyc; by apply Hacyc in Hv].
    + by right.
  - destruct Hspec.
Qed.

(** *** Layered topological sort *)

(** C8. [layered_topological_sort] reads the attribute [nodes], which no
    graph has: on every graph the call raises [AttributeError] before any
    vertex is visited, so no layer is assigned and no grouping is returned. *)
Theorem layered_topological_sort_raises (g : Graph) :
  layered_topological_sort g = Raise (AttributeError "nodes").
Proof. reflexivity. Qed.

(** The body of the method, run over the vertex collection of a chain
    A -> B -> C and of a graph with the two edges A -> B and A -> C: a vertex
    gets the depth of the call that first visits it, so the vertices that
    nothing precedes in the traversal are in layer 0. *)
Example layered_body_on_chain :
  ∃ g w vs,
    sample_graph chain_nodes chain_edges = (Ok g, w)
    ∧ layered_topological_sort_over (vertex_refs g) (vertices g) = Ok ([[0]; [1]; [2]], vs)
    ∧ map layer vs = [Some 0; Some 1; Some 2].
Proof.
  eexists _, _, _. split; [vm_compute; reflexivity|]. split; vm_compute; reflexivity.
Qed.

(** C2. On the cyclic graph A -> B -> C -> A, [topological_sort] raises the
    cycle error, and [layered_topological_sort] raises [AttributeError]
    instead of it. *)
Theorem cyclic_graph_sorts :
  ∃ g w,
    sample_graph chain_nodes (chain_edges ++ [raw_link "C" "A"]) = (Ok g, w)
    ∧ topological_sort g = Raise cycle_error
    ∧ layered_topological_sort g = Raise (AttributeError "nodes").
Proof.
  eexists _, _. split; [vm_compute; reflexivity|]. split; vm_compute; reflexivity.
Qed.

(** ** The theorems at concrete inputs *)

Lemma chain_graph_built :
  _build_graph sample_type_map sample_file_tools sample_params
               (collect_top_level chain_nodes) chain_nodes chain_edges
  = (Ok chain_graph,
     snd (sample_graph chain_nodes chain_edges)).
Proof. vm_compute. reflexivity. Qed.

Lemma chain_graph_cross_registered : cross_registered chain_graph.
Proof. exact (build_graph_cross_registered _ _ _ _ _ _ _ _ chain_graph_built). Qed.

Lemma cycle_graph_built :
  _build_graph sample_type_map sample_file_tools sample_params
               (collect_top_level chain_nodes) chain_nodes (chain_edges ++ [raw_link "C" "A"])
  = (Ok cycle_graph,
     snd (sample_graph chain_nodes (chain_edges ++ [raw_link "C" "A"]))).
Proof. vm_compute. reflexivity. Qed.

Lemma cycle_graph_cross_registered : cross_registered cycle_graph.
Proof. exact (build_graph_cross_registered _ _ _ _ _ _ _ _ cycle_graph_built). Qed.

(** A graph whose edges all go up along a ranking of the vertices is acyclic. *)
Lemma ranked_acyclic (g : Graph) (rank : nat → nat) :
  Forall (λ e, rank (source e) < rank (target e)) (edges g) → acyclic g.
Proof.
  intros Hrank.
  assert (∀ a b, tc (edge_rel g) a b → rank a < rank b) as Htc.
  { induction 1 as [a b (e & He & <- & <-)|a b c (e & He & <- & <-) _ IH].
    - by apply (proj1 (Forall_forall _ _) Hrank).
    - pose proof (proj1 (Forall_forall _ _) Hrank e He). simpl in *. lia. }
  intros v Hv. apply Htc in Hv. lia.
Qed.

Lemma chain_graph_acyclic : acyclic chain_graph.
Proof. apply (ranked_acyclic chain_graph (λ v, v)). repeat constructor. Qed.

Lemma topological_sort_acyclic_witness :
  cross_registered chain_graph ∧ acyclic chain_graph
  ∧ ∃ state sorted_vertices,
      topological_traversal chain_graph = Ok (state, sorted_vertices)
      ∧ topological_sort chain_graph = Ok (reverse sorted_vertices)
      ∧ length (reverse sorted_vertices) = length (vertices chain_graph)
      ∧ reverse sorted_vertices ≡ₚ vertex_refs chain_graph
      ∧ (∀ e, e ∈ edges chain_graph →
              before (reverse sorted_vertices) (source e) (target e))
      ∧ (∀ e, e ∈ edges chain_graph → before sorted_vertices (target e) (source e)).
Proof.
  split; [exact chain_graph_cross_registered|]. split; [exact chain_graph_acyclic|].
  exact (topological_sort_acyclic chain_graph chain_graph_cross_registered chain_graph_acyclic).
Defined.

Lemma topological_sort_cycle_iff_witness :
  cross_registered cycle_graph
  ∧ (topological_sort cycle_graph = Raise cycle_error ↔ ∃ v, tc (edge_rel cycle_graph) v v)
  ∧ ((∃ l, topological_sort cycle_graph = Ok l) ↔ acyclic cycle_graph)
  ∧ ((∃ l, topological_sort cycle_graph = Ok l)
     ∨ topological_sort cycle_graph = Raise cycle_error).
Proof.
  split; [exact cycle_graph_cross_registered|].
  exact (topological_sort_cycle_iff cycle_graph cycle_graph_cross_registered).
Defined.

(** The chain's vertices with an edge to an identifier no vertex has. *)
Lemma chain_vertices_built :
  _build_vertices sample_type_map sample_file_tools [] chain_nodes
  = (Ok chain_vertices, chain_log).
Proof. vm_compute. reflexivity. Qed.

Lemma dangling_edges_carry_endpoints :
  Forall (λ edge, ∃ src tgt, endpoints edge src tgt) [raw_link "A" "B"; raw_link "B" "Z"].
Proof. repeat constructor; eexists _, _; split; reflexivity. Qed.

Lemma build_edges_unknown_endpoint_witness :
  (Exists (λ edge, ∃ src tgt, endpoints edge src tgt
                              ∧ (¬ known_id chain_vertices src ∨ ¬ known_id chain_vertices tgt))
          [raw_link "A" "B"; raw_link "B" "Z"] →
   ∃ edge src tgt, edge ∈ [raw_link "A" "B"; raw_link "B" "Z"] ∧ endpoints edge src tgt
     ∧ ((¬ known_id chain_vertices src
         ∧ _build_graph sample_type_map sample_file_tools sample_params []
                        chain_nodes [raw_link "A" "B"; raw_link "B" "Z"]
           = (Raise (ValueError ("Source node " +:+ src +:+ " not found")), chain_log))
        ∨ (¬ known_id chain_vertices tgt
           ∧ _build_graph sample_type_map sample_file_tools sample_params []
                          chain_nodes [raw_link "A" "B"; raw_link "B" "Z"]
             = (Raise (ValueError ("Target node " +:+ tgt +:+ " not found")), chain_log))))
  ∧ (∀ g w', _build_graph sample_type_map sample_file_tools sample_params []
                          chain_nodes [raw_link "A" "B"; raw_link "B" "Z"]
             = (Ok g, w') →
             Forall (resolved (vertices g)) (edges g)
             ∧ Forall (λ e, source e < length (vertices g) ∧ target e < length (vertices g))
                      (edges g)).
Proof.
  exact (build_edges_unknown_endpoint sample_type_map sample_file_tools sample_params
           [] chain_nodes [raw_link "A" "B"; raw_link "B" "Z"] chain_vertices chain_log
           chain_vertices_built dangling_edges_carry_endpoints).
Defined.

(** A payload wrapped in "data" whose inner dictionary has no "nodes". *)
Lemma from_payload_missing_keys_witness :
  unwrapped [("data", PyDict [("edges", PyList []); ("viewport", PyNone)])]
  = PyDict [("edges", PyList []); ("viewport", PyNone)]
  ∧ (dict_get [("edges", PyList []); ("viewport", PyNone)] "nodes" = None
     ∨ dict_get [("edges", PyList []); ("viewport", PyNone)] "edges" = None)
  ∧ ∃ k, (k = "nodes" ∨ k = "edges")
         ∧ dict_get [("edges", PyList []); ("viewport", PyNone)] k = None
         ∧ from_payload sample_type_map sample_file_tools (λ flow, flow) sample_params
                        sample_repr
                        [("data", PyDict [("edges", PyList []); ("viewport", PyNone)])]
           = (Raise (ValueError ("Invalid payload. Expected keys 'nodes' and 'edges'. Found "
                                 +:+ str_of_list sample_repr
                                       (dict_keys [("edges", PyList []); ("viewport", PyNone)]))),
              [ExceptionLogged (KeyError k)]).
Proof.
  split; [reflexivity|]. split; [left; reflexivity|].
  exact (from_payload_missing_keys sample_type_map sample_file_tools (λ flow, flow)
           sample_params sample_repr
           [("data", PyDict [("edges", PyList []); ("viewport", PyNone)])]
           [("edges", PyList []); ("viewport", PyNone)]
           eq_refl (or_introl eq_refl)).
Defined.

(** ** The engine on the examples of the specification *)

(** Nodes A, B, C with edges A -> B and B -> C sort as A, B, C. *)
Example chain_sorted : topological_sort chain_graph = Ok [0; 1; 2].
Proof. vm_compute. reflexivity. Qed.

Example chain_ids : map id (vertices chain_graph) = ["A"; "B"; "C"].
Proof. reflexivity. Qed.

(** Adding the edge C -> A makes the sort raise the cycle error. *)
Example cycle_rejected : topological_sort cycle_graph = Raise cycle_error.
Proof. vm_compute. reflexivity. Qed.

(** The textual representation of the chain. *)
Example chain_repr :
  __repr__ sample_repr chain_graph
  = "Graph:" +:+ newline +:+ "Nodes: ['A', 'B', 'C']" +:+ newline
    +:+ "Connections:" +:+ newline +:+ "A --> B" +:+ newline +:+ "B --> C".
Proof. vm_compute. reflexivity. Qed.

(** Two vertices and no edge fail validation; one vertex alone passes. *)
Example two_isolated_vertices_rejected :
  fst (sample_graph [raw_node "A" "a"; raw_node "B" "b"] [])
  = Raise (ValueError "a is not connected to any other components").
Proof. vm_compute. reflexivity. Qed.

Example single_vertex_accepted :
  ∃ g w, sample_graph [raw_node "A" "a"] [] = (Ok g, w) ∧ map id (vertices g) = ["A"].
Proof. eexists _, _. split; vm_compute; reflexivity. Qed.

(** Both toolkits receive the second language model, vertex 3. *)
Example agents_share_last_llm :
  ∃ g w, sample_graph agents_nodes agents_edges = (Ok g, w)
         ∧ map vertex_class (vertices g) = [LLMVertex; ToolkitVertex; ToolkitVertex; LLMVertex]
         ∧ map (λ v, dict_get (params v) "llm") (vertices g)
           = [None; Some (ParamVertex 3); Some (ParamVertex 3); None].
Proof. eexists _, _. split; [vm_compute; reflexivity|]. split; vm_compute; reflexivity. Qed.

(** An edge to an unknown identifier aborts construction after the vertices
    were instantiated and before any parameter is prepared. *)
Example dangling_edge_rejected :
  sample_graph chain_nodes [raw_link "A" "B"; raw_link "B" "Z"]
  = (Raise (ValueError "Target node Z not found"),
     [VertexInstantiated Vertex "A"; VertexInstantiated Vertex "B";
      VertexInstantiated Vertex "C"]).
Proof. vm_compute. reflexivity. Qed.

(** ** Further properties of the construction *)

(** *** [get_vertex] *)

Lemma get_vertex_from_first (base : nat) (vs : list VertexObject) (node_id : string) (k : nat) :
  get_vertex_from base vs node_id = Some k →
  ∀ i v, i < k - base → vs !! i = Some v → id v ≠ node_id.
Proof.
  revert base. induction vs as [|u vs IH]; intros base; simpl; [discriminate|].
  destruct (String.eqb (id u) node_id) eqn:E.
  - intros [= <-] i v Hi. lia.
  - apply String.eqb_neq in E. intros H i v Hi Hv.
    destruct i as [|i]; simpl in Hv.
    + by injection Hv as <-.
    + apply (IH _ H i v); [|exact Hv].
      destruct (get_vertex_from_Some _ _ _ _ H) as (_ & Hle & _). lia.
Qed.

(** [get_vertex] answers [None] exactly for an identifier no vertex has, and
    otherwise the first vertex, in collection order, that has it. *)
Theorem get_vertex_first_match (vs : list VertexObject) (node_id : string) :
  (get_vertex vs node_id = None ↔ ¬ known_id vs node_id)
  ∧ ∀ k, get_vertex vs node_id = Some k ↔
         (∃ v, vs !! k = Some v ∧ id v = node_id)
         ∧ ∀ i v, i < k → vs !! i = Some v → id v ≠ node_id.
Proof.
  split; [apply get_vertex_from_None|]. intros k. split.
  - intros H. split; [by apply get_vertex_Some|].
    intros i v Hi. apply (get_vertex_from_first 0 vs node_id k H). lia.
  - intros [(v & Hv & Hid) Hfirst].
    destruct (get_vertex vs node_id) as [k'|] eqn:E.
    + destruct (get_vertex_Some _ _ _ E) as (v' & Hv' & Hid').
      pose proof (get_vertex_from_first 0 vs node_id k' E) as Hfirst'.
      destruct (Nat.lt_trichotomy k k') as [Hlt|[->|Hlt]]; [|reflexivity|].
      * exfalso. apply (Hfirst' k v); [lia | exact Hv | exact Hid].
      * exfalso. by apply (Hfirst k' v').
    + apply get_vertex_from_None in E. exfalso. apply E. unfold known_id.
      apply list_elem_of_fmap. exists v. split; [by symmetry|]. by eapply list_elem_of_lookup_2.
Qed.

(** *** [_build_edges] *)

Lemma build_edge_looked_up (vs : list VertexObject) (edge : list (string * PyVal)) (e : Edge) :
  _build_edge vs edge = Ok e → looked_up vs e ∧ raw_edge e = edge.
Proof.
  unfold _build_edge. intros H.
  apply rbind_Ok_inv in H as (src & Hsrc & H).
  apply rbind_Ok_inv in H as (tgt & Htgt & H).
  apply getitem_str_inv in Hsrc. apply getitem_str_inv in Htgt.
  destruct (get_vertex vs src) as [s|] eqn:Hs; [|discriminate].
  destruct (get_vertex vs tgt) as [t|] eqn:Ht; [|discriminate].
  injection H as <-. split; [|reflexivity]. exists src, tgt. by repeat split.
Qed.

Lemma build_edges_from_looked_up (vs : list VertexObject)
    (raw : list (list (string * PyVal))) (acc es : list Edge) :
  _build_edges_from vs raw acc = Ok es →
  Forall (looked_up vs) acc → Forall (looked_up vs) es.
Proof.
  revert acc. induction raw as [|edge raw IH]; intros acc; simpl.
  - by intros [= <-].
  - intros H Hacc. apply rbind_Ok_inv in H as (e & He & H).
    apply build_edge_looked_up in He as [He _].
    apply (IH _ H). apply Forall_app. split; [exact Hacc | by constructor].
Qed.

(** A successful [_build_edges] returns one edge per raw record, in order,
    each keeping its record and joining the first vertices that carry the
    identifiers the record names. *)
Theorem build_edges_in_order (vs : list VertexObject) (raw : list (list (string * PyVal)))
    (es : list Edge) :
  _build_edges vs raw = Ok es →
  map raw_edge es = raw ∧ length es = length raw ∧ Forall (looked_up vs) es.
Proof.
  unfold _build_edges. intros H.
  destruct (build_edges_from_Ok _ _ _ _ H (Forall_nil_2 _)) as [_ Hmap]. simpl in Hmap.
  split; [exact Hmap|]. split.
  - by rewrite <- Hmap, length_map.
  - by apply (build_edges_from_looked_up _ _ _ _ H).
Qed.

(** *** [_validate_nodes] on a built graph *)

Lemma validate_nodes_loop_Ok_inv (vs : list VertexObject) :
  _validate_nodes_loop vs = Ok tt → Forall (λ v, edges_of v ≠ []) vs.
Proof.
  induction vs as [|v vs IH]; simpl; [by constructor|].
  destruct (_validate_node v) eqn:E; simpl; [|discriminate].
  intros H. constructor; [|by apply IH].
  intros Hv. apply validate_node_false in Hv. congruence.
Qed.

Lemma validate_nodes_Ok_inv (vs : list VertexObject) :
  _validate_nodes vs = Ok tt → length vs ≠ 1 → Forall (λ v, edges_of v ≠ []) vs.
Proof.
  unfold _validate_nodes. intros H Hlen.
  apply Nat.eqb_neq in Hlen. rewrite Hlen in H. by apply validate_nodes_loop_Ok_inv.
Qed.

Lemma get_vertex_from_ids (base : nat) (vs vs' : list VertexObject) (node_id : string) :
  map id vs = map id vs' → get_vertex_from base vs node_id = get_vertex_from base vs' node_id.
Proof.
  revert base vs'. induction vs as [|v vs IH]; intros base [|v' vs']; simpl; try discriminate.
  - reflexivity.
  - intros [= Hid Hrest]. rewrite Hid. destruct (String.eqb (id v') node_id); [reflexivity|].
    by apply IH.
Qed.

Section BuiltGraph.

Variable VERTEX_TYPE_MAP : gmap string VertexClass.
Variable FILE_TOOLS : gset string.
Variable _build_params : VertexObject -> list (string * ParamVal).

Lemma built_looked_up (top : list PyVal) (raw_nodes raw_edges : list (list (string * PyVal)))
    (g : Graph) (w : list event) :
  _build_graph VERTEX_TYPE_MAP FILE_TOOLS _build_params top raw_nodes raw_edges = (Ok g, w) →
  Forall (looked_up (vertices g)) (edges g).
Proof.
  intros H.
  destruct (built_ids _ _ _ _ _ _ _ _ H) as (vs0 & w0 & _ & Hes & Hids & _).
  destruct (build_edges_in_order _ _ _ Hes) as (_ & _ & Hlook).
  eapply Forall_impl; [exact Hlook|]. intros e (src & tgt & Hend & Hs & Ht).
  exists src, tgt. unfold get_vertex in *.
  rewrite (get_vertex_from_ids 0 _ _ src Hids), (get_vertex_from_ids 0 _ _ tgt Hids).
  split; [exact Hend|]. split; assumption.
Qed.

(** A vertex of a built graph holds an edge exactly when the edge is in the
    edge collection and the vertex is its source or its target; and unless
    the vertex is alone in the graph, it holds at least one. *)
Theorem built_vertex_edges (top : list PyVal)
    (raw_nodes raw_edges : list (list (string * PyVal))) (g : Graph) (w : list event) :
  _build_graph VERTEX_TYPE_MAP FILE_TOOLS _build_params top raw_nodes raw_edges = (Ok g, w) →
  ∀ i v, vertices g !! i = Some v →
         (∀ e, e ∈ edges_of v ↔ e ∈ edges g ∧ (source e = i ∨ target e = i))
         ∧ (length (vertices g) ≠ 1 →
            ∃ e, e ∈ edges_of v ∧ e ∈ edges g ∧ (source e = i ∨ target e = i)).
Proof.
  intros H i v Hv.
  destruct (built_vertex_lookup _ _ _ _ _ _ _ _ H) as (vs0 & w0 & _ & _ & Hlen & Hlook).
  destruct (build_graph_inv _ _ _ _ _ _ _ _ H) as (_ & _ & _ & _ & _ & Hval & _).
  assert (edges_of v = incident i (edges g)) as Hinc.
  { destruct (lookup_lt_is_Some_2 vs0 i) as [v0 Hv0].
    - rewrite <- Hlen. by eapply lookup_lt_Some.
    - destruct (Hlook _ _ Hv0) as (v' & Hv' & _ & _ & Hedges). congruence. }
  assert (∀ e, e ∈ edges_of v ↔ e ∈ edges g ∧ (source e = i ∨ target e = i)) as Hmem.
  { intros e. rewrite Hinc. apply elem_of_incident. }
  split; [exact Hmem|]. intros Hne.
  pose proof (validate_nodes_Ok_inv _ Hval Hne) as Hall.
  rewrite Forall_lookup in Hall. specialize (Hall _ _ Hv).
  destruct (edges_of v) as [|e es] eqn:E; [done|].
  assert (e ∈ e :: es) as Hin by apply list_elem_of_here.
  exists e. split; [exact Hin|]. by apply Hmem.
Qed.

Lemma built_ids_NoDup (top : list PyVal)
    (raw_nodes raw_edges : list (list (string * PyVal))) (g : Graph) (w : list event) :
  _build_graph VERTEX_TYPE_MAP FILE_TOOLS _build_params top raw_nodes raw_edges = (Ok g, w) →
  NoDup (map id (vertices g)).
Proof.
  intros H. pose proof (built_looked_up _ _ _ _ _ H) as Hlook.
  destruct (build_graph_inv _ _ _ _ _ _ _ _ H) as (_ & _ & _ & _ & _ & Hval & _).
  destruct (built_vertex_lookup _ _ _ _ _ _ _ _ H) as (vs0 & w0 & _ & _ & Hlen & Hvl).
  assert (∀ i j vi vj, i < j → vertices g !! i = Some vi → vertices g !! j = Some vj →
                       id vi ≠ id vj) as Hlt.
  { intros i j vi vj Hij Hi Hj Heq.
    assert (length (vertices g) ≠ 1) as Hne.
    { apply lookup_lt_Some in Hj. lia. }
    pose proof (validate_nodes_Ok_inv _ Hval Hne) as Hall.
    rewrite Forall_lookup in Hall. pose proof (Hall _ _ Hj) as Hedges.
    assert (edges_of vj = incident j (edges g)) as Hinc.
    { destruct (lookup_lt_is_Some_2 vs0 j) as [v0 Hv0].
      - rewrite <- Hlen. by eapply lookup_lt_Some.
      - destruct (Hvl _ _ Hv0) as (v' & Hv' & _ & _ & He). congruence. }
    destruct (edges_of vj) as [|e es] eqn:E; [done|].
    assert (e ∈ incident j (edges g)) as Hin by (rewrite <- Hinc; apply list_elem_of_here).
    apply elem_of_incident in Hin as [Hin Hend].
    rewrite Forall_forall in Hlook. destruct (Hlook e Hin) as (src & tgt & _ & Hs & Ht).
    destruct Hend as [Hend|Hend]; rewrite Hend in *.
    - destruct (get_vertex_Some _ _ _ Hs) as (u & Hu & Hid).
      apply (get_vertex_from_first 0 _ _ _ Hs i vi); [lia | exact Hi | congruence].
    - destruct (get_vertex_Some _ _ _ Ht) as (u & Hu & Hid).
      apply (get_vertex_from_first 0 _ _ _ Ht i vi); [lia | exact Hi | congruence]. }
  apply NoDup_alt. intros i j x Hi Hj.
  rewrite list_lookup_fmap in Hi, Hj.
  destruct (vertices g !! i) as [vi|] eqn:Hvi; [|discriminate].
  destruct (vertices g !! j) as [vj|] eqn:Hvj; [|discriminate].
  simpl in Hi, Hj. injection Hi as Hi. injection Hj as Hj.
  destruct (Nat.lt_trichotomy i j) as [Hij|[->|Hij]]; [|reflexivity|].
  - exfalso. apply (Hlt i j vi vj Hij Hvi Hvj). congruence.
  - exfalso. apply (Hlt j i vj vi Hij Hvj Hvi). congruence.
Qed.

(** The vertices of a built graph have pairwise distinct identifiers: a
    vertex whose identifier an earlier vertex already has can take no edge,
    and validation rejects it. *)
Theorem built_ids_distinct (top : list PyVal)
    (raw_nodes raw_edges : list (list (string * PyVal))) (g : Graph) (w : list event) :
  _build_graph VERTEX_TYPE_MAP FILE_TOOLS _build_params top raw_nodes raw_edges = (Ok g, w) →
  NoDup (map id (vertices g)) ∧ ∀ i j vi vj,
    vertices g !! i = Some vi → vertices g !! j = Some vj → id vi = id vj → i = j.
Proof.
  intros H. pose proof (built_ids_NoDup _ _ _ _ _ H) as Hnd. split; [exact Hnd|].
  intros i j vi vj Hi Hj Heq. apply (NoDup_lookup _ _ _ (id vi) Hnd); rewrite list_lookup_fmap.
  - by rewrite Hi.
  - by rewrite Hj, Heq.
Qed.

(** On a built graph, looking a vertex up by its own identifier returns that
    very vertex. *)
Theorem built_get_vertex_round_trip (top : list PyVal)
    (raw_nodes raw_edges : list (list (string * PyVal))) (g : Graph) (w : list event) :
  _build_graph VERTEX_TYPE_MAP FILE_TOOLS _build_params top raw_nodes raw_edges = (Ok g, w) →
  ∀ i v, vertices g !! i = Some v → get_vertex (vertices g) (id v) = Some i.
Proof.
  intros H i v Hv.
  pose proof (built_ids_NoDup _ _ _ _ _ H) as Hnd.
  destruct (get_vertex (vertices g) (id v)) as [k|] eqn:E.
  - destruct (get_vertex_Some _ _ _ E) as (u & Hu & Hid). f_equal.
    apply (NoDup_lookup _ _ _ (id v) Hnd); rewrite list_lookup_fmap.
    + by rewrite Hu, <- Hid.
    + by rewrite Hv.
  - apply get_vertex_from_None in E. exfalso. apply E. unfold known_id.
    apply list_elem_of_fmap. exists v. split; [reflexivity|]. by eapply list_elem_of_lookup_2.
Qed.

End BuiltGraph.

(** *** [_build_vertices] *)

Lemma lift_Ok_inv {A} (r : result A) (a : A) (w : list event) :
  lift r = (Ok a, w) → r = Ok a ∧ w = [].
Proof. unfold lift. by intros [= -> <-]. Qed.

Lemma as_str_Ok_inv (r : result PyVal) (s : string) :
  rbind r as_str = Ok s → r = Ok (PyStr s).
Proof.
  intros H. apply rbind_Ok_inv in H as (x & -> & H).
  destruct x; simpl in H; try discriminate. by injection H as ->.
Qed.

Section Vertices.

Variable VERTEX_TYPE_MAP : gmap string VertexClass.
Variable FILE_TOOLS : gset string.

Lemma build_vertex_Ok_inv (top : list PyVal) (node : list (string * PyVal))
    (v : VertexObject) (w : list event) :
  _build_vertex VERTEX_TYPE_MAP FILE_TOOLS top node = (Ok v, w) →
  built_from VERTEX_TYPE_MAP FILE_TOOLS top node v
  ∧ w = [VertexInstantiated (vertex_class v) (id v)].
Proof.
  unfold _build_vertex. intros H.
  apply bind_Ok_inv in H as (node_data & w1 & w1' & H1 & H & ->).
  apply bind_Ok_inv in H as (node_type & w2 & w2' & H2 & H & ->).
  apply bind_Ok_inv in H as (lc & w3 & w3' & H3 & H & ->).
  apply bind_Ok_inv in H as (node_id & w4 & w4' & H4 & H & ->).
  apply bind_Ok_inv in H as (vertex & w5 & w5' & H5 & H & ->).
  apply lift_Ok_inv in H1 as [H1 ->]. apply lift_Ok_inv in H2 as [H2 ->].
  apply lift_Ok_inv in H3 as [H3 ->]. apply lift_Ok_inv in H4 as [H4 ->].
  apply as_str_Ok_inv in H2. apply as_str_Ok_inv in H3. apply getitem_str_inv in H4.
  unfold new_vertex, emit, ret, bind in H5. injection H5 as <- <-.
  unfold ret in H. injection H as <- <-.
  simpl in H1. destruct (dict_get node "data") as [nd|] eqn:Hnd; [|discriminate].
  injection H1 as ->.
  split; [|reflexivity].
  split; [reflexivity|]. split; [exact H4|]. split; [|by repeat split].
  exists node_data, lc. by repeat split.
Qed.

Lemma build_vertices_from_Ok (top : list PyVal) (raw : list (list (string * PyVal)))
    (acc vs : list VertexObject) (w : list event) :
  _build_vertices_from VERTEX_TYPE_MAP FILE_TOOLS top raw acc = (Ok vs, w) →
  ∃ new, vs = acc ++ new
         ∧ Forall2 (built_from VERTEX_TYPE_MAP FILE_TOOLS top) raw new
         ∧ w = map (λ v, VertexInstantiated (vertex_class v) (id v)) new.
Proof.
  revert acc w. induction raw as [|node raw IH]; intros acc w; simpl.
  - intros [= <- <-]. exists []. by rewrite app_nil_r.
  - intros H. apply bind_Ok_inv in H as (v & w1 & w2 & Hv & H & ->).
    apply build_vertex_Ok_inv in Hv as [Hv ->].
    destruct (IH _ _ H) as (new & -> & Hnew & ->).
    exists (v :: new). split; [by rewrite <- app_assoc|]. split; [by constructor|]. reflexivity.
Qed.

(** A successful [_build_vertices] returns one vertex per raw node, in order:
    each keeps its record, has the identifier and declared type the record
    gives and the class the resolver picks, carries no edge, parameter or
    layer, and is top-level exactly when its identifier is in
    [top_level_nodes]; each class was instantiated once, in that order. *)
Theorem build_vertices_in_order (top : list PyVal) (raw : list (list (string * PyVal)))
    (vs : list VertexObject) (w : list event) :
  _build_vertices VERTEX_TYPE_MAP FILE_TOOLS top raw = (Ok vs, w) →
  Forall2 (built_from VERTEX_TYPE_MAP FILE_TOOLS top) raw vs
  ∧ length vs = length raw
  ∧ w = map (λ v, VertexInstantiated (vertex_class v) (id v)) vs.
Proof.
  unfold _build_vertices. intros H.
  destruct (build_vertices_from_Ok _ _ _ _ _ H) as (new & -> & Hnew & ->). simpl.
  split; [exact Hnew|]. split; [|reflexivity]. symmetry. by eapply Forall2_length.
Qed.

Lemma build_vertices_from_app (top : list PyVal) (good rest : list (list (string * PyVal)))
    (acc vs : list VertexObject) (w : list event) :
  _build_vertices_from VERTEX_TYPE_MAP FILE_TOOLS top good acc = (Ok vs, w) →
  _build_vertices_from VERTEX_TYPE_MAP FILE_TOOLS top (good ++ rest) acc
  = (fst (_build_vertices_from VERTEX_TYPE_MAP FILE_TOOLS top rest vs),
     w ++ snd (_build_vertices_from VERTEX_TYPE_MAP FILE_TOOLS top rest vs)).
Proof.
  revert acc w. induction good as [|node good IH]; intros acc w; simpl.
  - intros [= <- <-]. by destruct (_build_vertices_from _ _ top rest acc).
  - intros H. apply bind_Ok_inv in H as (v & w1 & w2 & Hv & H & ->).
    rewrite Hv. unfold bind at 1. rewrite (IH _ _ H). by rewrite app_assoc.
Qed.

(** The first raw node without a "data" key stops [_build_vertices] with
    [KeyError]: the nodes before it were instantiated, this one and the ones
    after it were not, and no vertex list is returned. *)
Theorem build_vertices_missing_data (top : list PyVal)
    (good rest : list (list (string * PyVal))) (bad : list (string * PyVal))
    (vs : list VertexObject) (w : list event) :
  _build_vertices VERTEX_TYPE_MAP FILE_TOOLS top good = (Ok vs, w) →
  dict_get bad "data" = None →
  _build_vertices VERTEX_TYPE_MAP FILE_TOOLS top (good ++ bad :: rest)
  = (Raise (KeyError "data"), w)
  ∧ w = map (λ v, VertexInstantiated (vertex_class v) (id v)) vs
  ∧ length vs = length good.
Proof.
  intros H Hbad. destruct (build_vertices_in_order _ _ _ _ H) as (_ & Hlen & Hw).
  split; [|by split]. unfold _build_vertices in *.
  rewrite (build_vertices_from_app _ _ _ _ _ _ H). simpl.
  unfold _build_vertex. simpl. rewrite Hbad. simpl. by rewrite app_nil_r.
Qed.

End Vertices.

(** *** The whole construction *)

Section Construction.

Variable VERTEX_TYPE_MAP : gmap string VertexClass.
Variable FILE_TOOLS : gset string.
Variable process_flow :
  list (list (string * PyVal)) * list (list (string * PyVal)) ->
  list (list (string * PyVal)) * list (list (string * PyVal)).
Variable _build_params : VertexObject -> list (string * ParamVal).

(** A built graph against the vertices [_build_vertices] returned. *)
Lemma built_graph_trace (top : list PyVal) (raw_nodes raw_edges : list (list (string * PyVal)))
    (g : Graph) (w : list event) :
  _build_graph VERTEX_TYPE_MAP FILE_TOOLS _build_params top raw_nodes raw_edges = (Ok g, w) →
  ∃ vs0 w0,
    _build_vertices VERTEX_TYPE_MAP FILE_TOOLS top raw_nodes = (Ok vs0, w0)
    ∧ w = w0 ++ map ParamsPrepared (seq 0 (length vs0))
    ∧ Forall2 (λ v0 v, same_record v0 v ∧ id v = id v0 ∧ vertex_class v = vertex_class v0
                       ∧ vertex_type v = vertex_type v0) vs0 (vertices g).
Proof.
  unfold _build_graph. intros H.
  apply bind_Ok_inv in H as (vs0 & w0 & w1 & Hvs0 & H & ->).
  apply bind_Ok_inv in H as (es & w2 & w3 & Hes & H & ->).
  apply bind_Ok_inv in H as (vs' & w4 & w5 & Hvs' & H & ->).
  apply bind_Ok_inv in H as ([] & w6 & w7 & Hval & H & ->).
  apply lift_Ok_inv in Hes as [Hes ->]. apply lift_Ok_inv in Hval as [Hval ->].
  unfold ret in H. injection H as <- <-. simpl.
  destruct (build_node_params_result _build_params (register_edges es vs0)) as (r & Heq & _).
  rewrite Heq in Hvs'. injection Hvs' as <- <-.
  exists vs0, w0. split; [exact Hvs0|]. split.
  - by rewrite register_edges_length, !app_nil_r.
  - apply Forall2_same_length_lookup. split.
    + destruct r; unfold inject_llm; rewrite ?length_map; by rewrite register_edges_length.
    + intros i v0 v Hv0 Hv.
      assert (register_edges es vs0 !! i = Some (with_edges (incident i es) v0)) as Hreg
        by (by rewrite register_edges_lookup, Hv0).
      destruct r as [llm_node|].
      * rewrite inject_llm_lookup, list_lookup_fmap, Hreg in Hv. simpl in Hv.
        injection Hv as <-.
        destruct (is_ToolkitVertex (vertex_class v0)); by repeat split.
      * rewrite list_lookup_fmap, Hreg in Hv. simpl in Hv. injection Hv as <-.
        by repeat split.
Qed.

(** A successful construction leaves exactly these events: every vertex
    class instantiated once, in node order, and then every vertex's
    parameters prepared once, in the same order. *)
Theorem build_graph_events (top : list PyVal)
    (raw_nodes raw_edges : list (list (string * PyVal))) (g : Graph) (w : list event) :
  _build_graph VERTEX_TYPE_MAP FILE_TOOLS _build_params top raw_nodes raw_edges = (Ok g, w) →
  w = map (λ v, VertexInstantiated (vertex_class v) (id v)) (vertices g)
      ++ map ParamsPrepared (seq 0 (length (vertices g)))
  ∧ length (vertices g) = length raw_nodes
  ∧ length (edges g) = length raw_edges.
Proof.
  intros H. destruct (built_graph_trace _ _ _ _ _ H) as (vs0 & w0 & Hvs0 & -> & Hsame).
  destruct (build_vertices_in_order _ _ _ _ _ _ Hvs0) as (_ & Hlen & ->).
  pose proof (Forall2_length _ _ _ Hsame) as Hl.
  destruct (build_graph_inv _ _ _ _ _ _ _ _ H) as (vs1 & w1 & Hvs1 & Hes & _).
  rewrite Hvs0 in Hvs1. injection Hvs1 as <- _.
  destruct (build_edges_in_order _ _ _ Hes) as (_ & Hle & _).
  split; [|split; [congruence | exact Hle]].
  rewrite <- Hl. f_equal. clear -Hsame.
  induction Hsame as [|v0 v vs0 vs (_ & Hid & Hc & _) _ IH]; simpl; [reflexivity|].
  by rewrite IH, Hid, Hc.
Qed.

Lemma str_in_collect_top_level (s : string) (nodes : list (list (string * PyVal))) :
  str_in s (collect_top_level nodes) = true
  ↔ s ≠ "" ∧ ∃ node, node ∈ nodes ∧ dict_get node "id" = Some (PyStr s).
Proof.
  induction nodes as [|node nodes IH]; simpl.
  - split; [discriminate|]. intros (_ & node & Hin & _). by apply elem_of_nil in Hin.
  - assert ((s ≠ "" ∧ ∃ n, n ∈ node :: nodes ∧ dict_get n "id" = Some (PyStr s))
            ↔ (s ≠ "" ∧ dict_get node "id" = Some (PyStr s))
              ∨ (s ≠ "" ∧ ∃ n, n ∈ nodes ∧ dict_get n "id" = Some (PyStr s))) as Hsplit.
    { split.
      - intros (Hs & n & Hin & Hn). apply elem_of_cons in Hin as [->|Hin]; [by left|].
        right. split; [exact Hs|]. by exists n.
      - intros [[Hs Hn]|(Hs & n & Hin & Hn)]; (split; [exact Hs|]).
        + exists node. split; [apply list_elem_of_here | exact Hn].
        + exists n. split; [by apply list_elem_of_further | exact Hn]. }
    rewrite Hsplit, <- IH. clear Hsplit IH.
    destruct (dict_get node "id") as [x|] eqn:Hx.
    + destruct (truthy x) eqn:Ht.
      * simpl. rewrite orb_true_iff. split.
        -- intros [Hm|Hm]; [left|by right].
           destruct x; try discriminate. apply String.eqb_eq in Hm as ->.
           split; [|reflexivity]. simpl in Ht. intros ->. discriminate.
        -- intros [[Hs [= ->]]|Hm]; [left|by right]. apply String.eqb_refl.
      * split; [by right|]. intros [[Hs [= ->]]|Hm]; [|exact Hm].
        simpl in Ht. apply negb_false_iff, String.eqb_eq in Ht. contradiction.
    + split; [by right|]. intros [[_ ?]|Hm]; [discriminate | exact Hm].
Qed.

(** In a graph built by the constructor, a vertex is marked top-level
    exactly when its identifier is non-empty and is the "id" of one of the
    nodes the constructor was given, whatever the normalizer made of them. *)
Theorem init_top_level (nodes edges : list (list (string * PyVal))) (g : Graph)
    (w : list event) :
  __init__ VERTEX_TYPE_MAP FILE_TOOLS process_flow _build_params nodes edges = (Ok g, w) →
  ∀ v, v ∈ vertices g →
       (is_top_level v = true
        ↔ id v ≠ "" ∧ ∃ node, node ∈ nodes ∧ dict_get node "id" = Some (PyStr (id v))).
Proof.
  unfold __init__. intros H v Hv.
  destruct (built_graph_trace _ _ _ _ _ H) as (vs0 & w0 & Hvs0 & _ & Hsame).
  destruct (build_vertices_in_order _ _ _ _ _ _ Hvs0) as (Hbuilt & _ & _).
  apply list_elem_of_lookup in Hv as [i Hv].
  destruct (Forall2_lookup_r _ _ _ _ _ Hsame Hv) as (v0 & Hv0 & (_ & Htop & _) & Hid & _).
  destruct (Forall2_lookup_r _ _ _ _ _ Hbuilt Hv0) as (node & _ & Hb).
  destruct Hb as (_ & _ & _ & _ & _ & _ & Htl).
  rewrite Htop, Htl, Hid. apply str_in_collect_top_level.
Qed.

End Construction.

Section PropagationMore.

Variable _build_params : VertexObject -> list (string * ParamVal).

(** Without any [LLMVertex] in the collection nothing is injected: every
    vertex, toolkits included, ends with exactly the parameters it prepared. *)
Theorem build_node_params_without_llm (vs : list VertexObject) :
  Forall (λ v, is_LLMVertex (vertex_class v) = false) vs →
  _build_node_params _build_params vs
  = (Ok (map (λ v, set_params (_build_params v) v) vs),
     map ParamsPrepared (seq 0 (length vs))).
Proof.
  intros Hall. destruct (build_node_params_result _build_params vs) as (r & -> & Hr).
  destruct Hr as [[-> _]|(j & -> & [(v & Hv & Hllm) _])]; [reflexivity|].
  rewrite Forall_lookup in Hall. rewrite (Hall _ _ Hv) in Hllm. discriminate.
Qed.

End PropagationMore.

(** *** [from_payload] around the constructor *)

Lemma bind_lift_Ok {A B} (a : A) (f : A → M B) : bind (lift (Ok a)) f = f a.
Proof. unfold bind, lift. by destruct (f a). Qed.

Lemma dict_get_keys {V} (d : list (string * V)) (k : string) (x : V) :
  dict_get d k = Some x → k ∈ dict_keys d.
Proof.
  induction d as [|[k' v] d IH]; simpl; [discriminate|].
  destruct (String.eqb k' k) eqn:E.
  - apply String.eqb_eq in E as ->. intros _. apply list_elem_of_here.
  - intros H. apply list_elem_of_further. by apply IH.
Qed.

Section PayloadMore.

Variable VERTEX_TYPE_MAP : gmap string VertexClass.
Variable FILE_TOOLS : gset string.
Variable process_flow :
  list (list (string * PyVal)) * list (list (string * PyVal)) ->
  list (list (string * PyVal)) * list (list (string * PyVal)).
Variable _build_params : VertexObject -> list (string * ParamVal).
Variable repr : string -> string.

Lemma from_payload_try_records (d : list (string * PyVal)) (ns es : list PyVal)
    (nodes edges : list (list (string * PyVal))) :
  dict_get d "nodes" = Some (PyList ns) → dict_get d "edges" = Some (PyList es) →
  as_records ns = Ok nodes → as_records es = Ok edges →
  from_payload_try VERTEX_TYPE_MAP FILE_TOOLS process_flow _build_params (PyDict d)
  = __init__ VERTEX_TYPE_MAP FILE_TOOLS process_flow _build_params nodes edges.
Proof.
  intros Hn He Hns Hes. unfold from_payload_try. simpl getitem. rewrite Hn, He.
  rewrite !bind_lift_Ok. simpl as_record_list. rewrite Hns, Hes.
  by rewrite !bind_lift_Ok.
Qed.

(** With "nodes" and "edges" present as lists of records, [from_payload] is
    the constructor itself, result and events, whenever the constructor does
    not raise a [KeyError]: a graph is returned as built, and a
    [ValueError] of the construction (unknown endpoint, disconnected vertex)
    comes out unchanged. *)
Theorem from_payload_passes_through (payload d : list (string * PyVal)) (ns es : list PyVal)
    (nodes edges : list (list (string * PyVal))) :
  unwrapped payload = PyDict d →
  dict_get d "nodes" = Some (PyList ns) → dict_get d "edges" = Some (PyList es) →
  as_records ns = Ok nodes → as_records es = Ok edges →
  (∀ k, fst (__init__ VERTEX_TYPE_MAP FILE_TOOLS process_flow _build_params nodes edges)
        ≠ Raise (KeyError k)) →
  from_payload VERTEX_TYPE_MAP FILE_TOOLS process_flow _build_params repr payload
  = __init__ VERTEX_TYPE_MAP FILE_TOOLS process_flow _build_params nodes edges.
Proof.
  intros Hun Hn He Hns Hes Hno. unfold from_payload. fold (unwrapped payload). rewrite Hun.
  rewrite (from_payload_try_records d ns es nodes edges Hn He Hns Hes).
  destruct (__init__ _ _ _ _ nodes edges) as [[g|e|] w]; try reflexivity.
  destruct e as [k| | |]; try reflexivity. exfalso. by apply (Hno k).
Qed.

(** A node record without a "data" key makes [from_payload] raise the
    invalid-payload error, whose text lists the payload's keys, although
    "nodes" and "edges" are both among them; the [KeyError] is only logged. *)
Theorem from_payload_masks_key_error (payload d : list (string * PyVal)) (ns es : list PyVal)
    (nodes edges : list (list (string * PyVal)))
    (bad : list (string * PyVal)) (rest edges' : list (list (string * PyVal))) :
  unwrapped payload = PyDict d →
  dict_get d "nodes" = Some (PyList ns) → dict_get d "edges" = Some (PyList es) →
  as_records ns = Ok nodes → as_records es = Ok edges →
  process_flow (nodes, edges) = (bad :: rest, edges') →
  dict_get bad "data" = None →
  from_payload VERTEX_TYPE_MAP FILE_TOOLS process_flow _build_params repr payload
  = (Raise (ValueError ("Invalid payload. Expected keys 'nodes' and 'edges'. Found "
                        +:+ str_of_list repr (dict_keys d))),
     [ExceptionLogged (KeyError "data")])
  ∧ "nodes" ∈ dict_keys d ∧ "edges" ∈ dict_keys d.
Proof.
  intros Hun Hn He Hns Hes Hpf Hbad. split; [|split; by eapply dict_get_keys].
  unfold from_payload. fold (unwrapped payload). rewrite Hun.
  rewrite (from_payload_try_records d ns es nodes edges Hn He Hns Hes).
  unfold __init__. rewrite Hpf. simpl fst. simpl snd.
  unfold _build_graph, _build_vertices. simpl _build_vertices_from.
  unfold _build_vertex. simpl getitem. rewrite Hbad. reflexivity.
Qed.

End PayloadMore.

(** *** Queries against the topological order *)

Lemma topological_sort_Ok_inv (g : Graph) (l : list nat) :
  cross_registered g → topological_sort g = Ok l →
  NoDup l ∧ (∀ v, v ∈ l ↔ v < length (vertices g))
  ∧ ∀ s t, edge_rel g s t → before l s t.
Proof.
  intros Hg. pose proof (topological_traversal_spec g Hg) as Hspec.
  unfold topological_sort.
  destruct (topological_traversal g) as [[state post]|e|]; simpl in *; try discriminate.
  intros [= <-]. destruct Hspec as (Hnd & Hmem & Hord). split; [|split].
  - by rewrite reverse_Permutation.
  - intros v. by rewrite elem_of_reverse.
  - intros s t Hst. by apply before_reverse, Hord.
Qed.

Lemma elem_of_get_nodes_with_target (g : Graph) (node p : nat) :
  p ∈ get_nodes_with_target g node ↔ edge_rel g p node.
Proof.
  unfold get_nodes_with_target, edge_rel. rewrite list_elem_of_fmap. split.
  - intros (e & -> & He). apply list_elem_of_filter in He as [Ht He]. by exists e.
  - intros (e & He & Hs & Ht). exists e. split; [by symmetry|].
    by apply list_elem_of_filter.
Qed.

(** [get_nodes_with_target(node)] lists exactly the sources of the edges
    into [node], one entry per edge; and whenever [topological_sort] returns
    an order, every vertex of that list stands before [node] in it. *)
Theorem predecessors_sorted_before (g : Graph) (l : list nat) :
  cross_registered g → topological_sort g = Ok l →
  ∀ node,
    (∀ p, p ∈ get_nodes_with_target g node ↔ edge_rel g p node)
    ∧ length (get_nodes_with_target g node)
      = length (filter (λ e, target e = node) (edges g))
    ∧ ∀ p, p ∈ get_nodes_with_target g node → before l p node.
Proof.
  intros Hg Hl node. destruct (topological_sort_Ok_inv g l Hg Hl) as (_ & _ & Hord).
  split; [intros p; apply elem_of_get_nodes_with_target|]. split.
  - unfold get_nodes_with_target. by rewrite length_map.
  - intros p Hp. by apply Hord, elem_of_get_nodes_with_target.
Qed.

(** In an order returned by [topological_sort] the first vertex has no
    incoming edge and the last vertex has no outgoing edge. *)
Theorem topological_sort_ends (g : Graph) (l : list nat) :
  cross_registered g → topological_sort g = Ok l →
  (∀ v, head l = Some v → ∀ s, ¬ edge_rel g s v)
  ∧ (∀ v, last l = Some v → ∀ t, ¬ edge_rel g v t).
Proof.
  intros Hg Hl. destruct (topological_sort_Ok_inv g l Hg Hl) as (Hnd & _ & Hord). split.
  - intros v Hv s Hsv. destruct (Hord _ _ Hsv) as (i & j & _ & Hj & Hij).
    rewrite head_lookup in Hv.
    assert (j = 0) by (by eapply NoDup_lookup). lia.
  - intros v Hv t Hvt. destruct (Hord _ _ Hvt) as (i & j & Hi & Hj & Hij).
    rewrite last_lookup in Hv.
    assert (i = pred (length l)) by (by eapply NoDup_lookup).
    apply lookup_lt_Some in Hj. lia.
Qed.

(** *** [get_node_neighbors] *)

Lemma count_neighbor_lookup (neighbor v : nat) (m : gmap nat nat) :
  count_neighbor neighbor m !! v
  = if decide (neighbor = v)
    then Some (S (default 0 (m !! v)))
    else m !! v.
Proof.
  unfold count_neighbor. destruct (decide (neighbor = v)) as [->|Hne].
  - rewrite lookup_alter_eq. destruct (m !! v) as [x|] eqn:E.
    + by rewrite E.
    + by rewrite lookup_insert_eq.
  - rewrite lookup_alter_ne by done. destruct (m !! neighbor); [done|].
    by rewrite lookup_insert_ne.
Qed.

Lemma multiplicity_cons (node v : nat) (e : Edge) (es : list Edge) :
  multiplicity node v (e :: es)
  = (if decide ((source e = node ∧ target e = v)
                ∨ (source e ≠ node ∧ target e = node ∧ source e = v))
     then 1 else 0) + multiplicity node v es.
Proof. unfold multiplicity. rewrite filter_cons. by case_decide. Qed.

(** The loop adds, for every vertex, the number of edges that join it to
    [node] to the count the dictionary already holds. *)
Lemma get_node_neighbors_loop_lookup (node v : nat) (es : list Edge) (m : gmap nat nat) :
  get_node_neighbors_loop node es m !! v
  = match m !! v with
    | Some x => Some (x + multiplicity node v es)
    | None => if decide (multiplicity node v es = 0) then None
              else Some (multiplicity node v es)
    end.
Proof.
  revert m. induction es as [|e es IH]; intros m; simpl.
  - unfold multiplicity. simpl. destruct (m !! v); [f_equal; lia | done].
  - rewrite multiplicity_cons.
    destruct (Nat.eqb_spec (source e) node) as [Hs|Hs];
      [|destruct (Nat.eqb_spec (target e) node) as [Ht|Ht]];
      rewrite IH, ?count_neighbor_lookup;
      repeat case_decide; destruct (m !! v) as [x|]; simpl in *;
      first [ f_equal; lia | done | exfalso; lia | solve [exfalso; intuition congruence] ].
Qed.

Lemma multiplicity_sym (node v : nat) (es : list Edge) :
  node ≠ v → multiplicity node v es = multiplicity v node es.
Proof.
  intros Hne. induction es as [|e es IH]; [reflexivity|].
  rewrite !multiplicity_cons, IH. f_equal.
  destruct (decide ((source e = node ∧ target e = v)
                    ∨ (source e ≠ node ∧ target e = node ∧ source e = v))) as [H|H].
  - rewrite decide_True; [reflexivity|].
    destruct H as [[Hs Ht]|(_ & Ht & Hs)]; [right|left]; repeat split; congruence.
  - rewrite decide_False; [reflexivity|]. intros H'. apply H.
    destruct H' as [[Hs Ht]|(_ & Ht & Hs)]; [right|left]; repeat split; congruence.
Qed.

(** [get_node_neighbors(node)] maps a vertex to the number of edges joining
    it to [node], in either direction, and has no entry for a vertex that no
    edge joins to [node]; an edge from [node] to itself counts once.  Between
    two distinct vertices the count is the same from either side. *)
Theorem get_node_neighbors_counts (g : Graph) (node v : nat) :
  get_node_neighbors g node !! v
  = (if decide (multiplicity node v (edges g) = 0) then None
     else Some (multiplicity node v (edges g)))
  ∧ get_node_neighbors g node !! v ≠ Some 0
  ∧ (node ≠ v → get_node_neighbors g node !! v = get_node_neighbors g v !! node)
  ∧ get_node_neighbors g node !! node
    = (if decide (length (filter (λ e, source e = node ∧ target e = node) (edges g)) = 0)
       then None
       else Some (length (filter (λ e, source e = node ∧ target e = node) (edges g)))).
Proof.
  assert (∀ a b, get_node_neighbors g a !! b
                 = if decide (multiplicity a b (edges g) = 0) then None
                   else Some (multiplicity a b (edges g))) as Hcount.
  { intros a b. unfold get_node_neighbors.
    by rewrite get_node_neighbors_loop_lookup, lookup_empty. }
  split; [apply Hcount|]. split; [|split].
  - rewrite Hcount. case_decide; [discriminate|]. intros [= ?]. lia.
  - intros Hne. rewrite !Hcount. by rewrite (multiplicity_sym node v _ Hne).
  - rewrite Hcount.
    assert (multiplicity node node (edges g)
            = length (filter (λ e, source e = node ∧ target e = node) (edges g))) as ->;
      [|reflexivity].
    unfold multiplicity. f_equal. apply list_filter_iff. intros e. split.
    + intros [H|(Hn & _ & Hs)]; [exact H | contradiction].
    + intros H. by left.
Qed.

(** *** The textual representation does not determine the connections *)

(** Whatever [repr] does on strings, two graphs built over the same five
    vertices compare equal although their edges join different vertices: an
    identifier may itself contain the arrow of a connection line. *)
Theorem repr_not_injective (repr : string → string) :
  ∃ g1 g2 w1 w2,
    sample_graph arrow_nodes arrow_edges_1 = (Ok g1, w1)
    ∧ sample_graph arrow_nodes arrow_edges_2 = (Ok g2, w2)
    ∧ __eq__ repr g1 (ObjGraph g2) = true
    ∧ map (λ e, (source e, target e)) (edges g1) ≠ map (λ e, (source e, target e)) (edges g2).
Proof.
  eexists _, _, _, _. split; [vm_compute; reflexivity|]. split; [vm_compute; reflexivity|].
  split.
  - unfold __eq__. apply String.eqb_eq. vm_compute. reflexivity.
  - vm_compute. discriminate.
Qed.

(** *** [get_children_by_node_type] *)

(** [get_children_by_node_type] never returns a vertex other than [node]
    itself: the list is empty or holds [node] once.  A record without "type"
    raises [KeyError]; so does a record whose "node" entry has no
    "base_classes", even when the declared type is the one asked for; and
    without a "node" entry the answer depends on the declared type alone. *)
Theorem get_children_only_self (node_data : PyVal) (node : nat) (node_type : string) :
  (∀ l, get_children_by_node_type node_data node node_type = Ok l → l = [] ∨ l = [node])
  ∧ (∀ d, node_data = PyDict d → dict_get d "type" = None →
          get_children_by_node_type node_data node node_type = Raise (KeyError "type"))
  ∧ (∀ d declared inner, node_data = PyDict d → dict_get d "type" = Some declared →
          dict_get d "node" = Some (PyDict inner) → dict_get inner "base_classes" = None →
          get_children_by_node_type node_data node node_type
          = Raise (KeyError "base_classes"))
  ∧ (∀ d declared, node_data = PyDict d → dict_get d "type" = Some (PyStr declared) →
          dict_get d "node" = None →
          get_children_by_node_type node_data node node_type
          = Ok (if String.eqb declared node_type then [node] else [])).
Proof.
  split; [|split; [|split]].
  - intros l. unfold get_children_by_node_type. intros H.
    apply rbind_Ok_inv in H as (declared & _ & H).
    apply rbind_Ok_inv in H as (node_types & _ & H).
    injection H as <-. destruct (str_in node_type node_types); [by right | by left].
  - intros d -> Hd. unfold get_children_by_node_type. simpl. by rewrite Hd.
  - intros d declared inner -> Hd Hn Hb. unfold get_children_by_node_type. simpl.
    rewrite Hd. simpl. rewrite Hn. simpl. by rewrite Hb.
  - intros d declared -> Hd Hn. unfold get_children_by_node_type. simpl.
    rewrite Hd. simpl. rewrite Hn. simpl. by rewrite orb_false_r.
Qed.

(** ** The further properties at concrete inputs *)

Lemma chain_edges_built : _build_edges chain_vertices chain_edges = Ok (edges chain_graph).
Proof. vm_compute. reflexivity. Qed.

Lemma chain_graph_init :
  __init__ sample_type_map sample_file_tools (λ flow, flow) sample_params
           chain_nodes chain_edges
  = (Ok chain_graph, snd (sample_graph chain_nodes chain_edges)).
Proof. vm_compute. reflexivity. Qed.

Lemma chain_graph_sorted : topological_sort chain_graph = Ok [0; 1; 2].
Proof. vm_compute. reflexivity. Qed.

Lemma chain_vertices_no_llm :
  Forall (λ v, is_LLMVertex (vertex_class v) = false) chain_vertices.
Proof. repeat constructor. Qed.

Lemma build_edges_in_order_witness :
  _build_edges chain_vertices chain_edges = Ok (edges chain_graph)
  ∧ map raw_edge (edges chain_graph) = chain_edges
  ∧ length (edges chain_graph) = length chain_edges
  ∧ Forall (looked_up chain_vertices) (edges chain_graph).
Proof.
  split; [exact chain_edges_built|].
  exact (build_edges_in_order chain_vertices chain_edges (edges chain_graph) chain_edges_built).
Defined.

Lemma built_vertex_edges_witness :
  _build_graph sample_type_map sample_file_tools sample_params
               (collect_top_level chain_nodes) chain_nodes chain_edges
  = (Ok chain_graph, snd (sample_graph chain_nodes chain_edges))
  ∧ ∀ i v, vertices chain_graph !! i = Some v →
           (∀ e, e ∈ edges_of v
                 ↔ e ∈ edges chain_graph ∧ (source e = i ∨ target e = i))
           ∧ (length (vertices chain_graph) ≠ 1 →
              ∃ e, e ∈ edges_of v ∧ e ∈ edges chain_graph
                   ∧ (source e = i ∨ target e = i)).
Proof.
  split; [exact chain_graph_built|].
  exact (built_vertex_edges _ _ _ _ _ _ _ _ chain_graph_built).
Defined.

Lemma built_ids_distinct_witness :
  _build_graph sample_type_map sample_file_tools sample_params
               (collect_top_level chain_nodes) chain_nodes chain_edges
  = (Ok chain_graph, snd (sample_graph chain_nodes chain_edges))
  ∧ NoDup (map id (vertices chain_graph))
  ∧ ∀ i j vi vj, vertices chain_graph !! i = Some vi → vertices chain_graph !! j = Some vj →
                 id vi = id vj → i = j.
Proof.
  split; [exact chain_graph_built|].
  exact (built_ids_distinct _ _ _ _ _ _ _ _ chain_graph_built).
Defined.

Lemma built_get_vertex_round_trip_witness :
  _build_graph sample_type_map sample_file_tools sample_params
               (collect_top_level chain_nodes) chain_nodes chain_edges
  = (Ok chain_graph, snd (sample_graph chain_nodes chain_edges))
  ∧ ∀ i v, vertices chain_graph !! i = Some v →
           get_vertex (vertices chain_graph) (id v) = Some i.
Proof.
  split; [exact chain_graph_built|].
  exact (built_get_vertex_round_trip _ _ _ _ _ _ _ _ chain_graph_built).
Defined.

Lemma build_vertices_in_order_witness :
  _build_vertices sample_type_map sample_file_tools [] chain_nodes
  = (Ok chain_vertices, chain_log)
  ∧ Forall2 (built_from sample_type_map sample_file_tools []) chain_nodes chain_vertices
  ∧ length chain_vertices = length chain_nodes
  ∧ chain_log = map (λ v, VertexInstantiated (vertex_class v) (id v)) chain_vertices.
Proof.
  split; [exact chain_vertices_built|].
  exact (build_vertices_in_order _ _ _ _ _ _ chain_vertices_built).
Defined.

Lemma build_vertices_missing_data_witness :
  dict_get [("id", PyStr "X")] "data" = (None : option PyVal)
  ∧ _build_vertices sample_type_map sample_file_tools []
                    (chain_nodes ++ [("id", PyStr "X")] :: [raw_node "Y" "y"])
    = (Raise (KeyError "data"), chain_log)
  ∧ chain_log = map (λ v, VertexInstantiated (vertex_class v) (id v)) chain_vertices
  ∧ length chain_vertices = length chain_nodes.
Proof.
  split; [reflexivity|].
  exact (build_vertices_missing_data _ _ _ chain_nodes [raw_node "Y" "y"] [("id", PyStr "X")]
           _ _ chain_vertices_built eq_refl).
Defined.

Lemma build_graph_events_witness :
  _build_graph sample_type_map sample_file_tools sample_params
               (collect_top_level chain_nodes) chain_nodes chain_edges
  = (Ok chain_graph, snd (sample_graph chain_nodes chain_edges))
  ∧ snd (sample_graph chain_nodes chain_edges)
    = map (λ v, VertexInstantiated (vertex_class v) (id v)) (vertices chain_graph)
    ++ map ParamsPrepared (seq 0 (length (vertices chain_graph)))
  ∧ length (vertices chain_graph) = length chain_nodes
  ∧ length (edges chain_graph) = length chain_edges.
Proof.
  split; [exact chain_graph_built|].
  exact (build_graph_events _ _ _ _ _ _ _ _ chain_graph_built).
Defined.

Lemma init_top_level_witness :
  __init__ sample_type_map sample_file_tools (λ flow, flow) sample_params
           chain_nodes chain_edges
  = (Ok chain_graph, snd (sample_graph chain_nodes chain_edges))
  ∧ ∀ v, v ∈ vertices chain_graph →
         (is_top_level v = true
          ↔ id v ≠ "" ∧ ∃ node, node ∈ chain_nodes
                                 ∧ dict_get node "id" = Some (PyStr (id v))).
Proof.
  split; [exact chain_graph_init|].
  exact (init_top_level _ _ _ _ _ _ _ _ chain_graph_init).
Defined.

Lemma build_node_params_without_llm_witness :
  Forall (λ v, is_LLMVertex (vertex_class v) = false) chain_vertices
  ∧ _build_node_params sample_params chain_vertices
    = (Ok (map (λ v, set_params (sample_params v) v) chain_vertices),
     map ParamsPrepared (seq 0 (length chain_vertices))).
Proof.
  split; [exact chain_vertices_no_llm|].
  exact (build_node_params_without_llm sample_params chain_vertices chain_vertices_no_llm).
Defined.

Lemma chain_init_no_key_error (k : string) :
  fst (__init__ sample_type_map sample_file_tools (λ flow, flow) sample_params
                chain_nodes chain_edges) ≠ Raise (KeyError k).
Proof. rewrite chain_graph_init. discriminate. Qed.

Lemma from_payload_passes_through_witness :
  from_payload sample_type_map sample_file_tools (λ flow, flow) sample_params sample_repr
               [("data", PyDict [("nodes", PyList (map PyDict chain_nodes));
                                 ("edges", PyList (map PyDict chain_edges))])]
  = __init__ sample_type_map sample_file_tools (λ flow, flow) sample_params
             chain_nodes chain_edges.
Proof.
  exact (from_payload_passes_through sample_type_map sample_file_tools (λ flow, flow)
           sample_params sample_repr
           [("data", PyDict [("nodes", PyList (map PyDict chain_nodes));
                             ("edges", PyList (map PyDict chain_edges))])]
           [("nodes", PyList (map PyDict chain_nodes));
            ("edges", PyList (map PyDict chain_edges))]
           (map PyDict chain_nodes) (map PyDict chain_edges) chain_nodes chain_edges
           eq_refl eq_refl eq_refl eq_refl eq_refl chain_init_no_key_error).
Defined.

Lemma from_payload_masks_key_error_witness :
  from_payload sample_type_map sample_file_tools (λ flow, flow) sample_params sample_repr
               [("nodes", PyList [PyDict [("id", PyStr "A")]]); ("edges", PyList [])]
  = (Raise (ValueError ("Invalid payload. Expected keys 'nodes' and 'edges'. Found "
                        +:+ str_of_list sample_repr
                              (dict_keys [("nodes", PyList [PyDict [("id", PyStr "A")]]);
                                          ("edges", PyList [])]))),
     [ExceptionLogged (KeyError "data")])
  ∧ "nodes" ∈ dict_keys [("nodes", PyList [PyDict [("id", PyStr "A")]]); ("edges", PyList [])]
  ∧ "edges" ∈ dict_keys [("nodes", PyList [PyDict [("id", PyStr "A")]]); ("edges", PyList [])].
Proof.
  exact (from_payload_masks_key_error sample_type_map sample_file_tools (λ flow, flow)
           sample_params sample_repr
           [("nodes", PyList [PyDict [("id", PyStr "A")]]); ("edges", PyList [])]
           [("nodes", PyList [PyDict [("id", PyStr "A")]]); ("edges", PyList [])]
           [PyDict [("id", PyStr "A")]] [] [[("id", PyStr "A")]] []
           [("id", PyStr "A")] [] []
           eq_refl eq_refl eq_refl eq_refl eq_refl eq_refl eq_refl).
Defined.

Lemma predecessors_sorted_before_witness :
  cross_registered chain_graph ∧ topological_sort chain_graph = Ok [0; 1; 2]
  ∧ ∀ node,
      (∀ p, p ∈ get_nodes_with_target chain_graph node ↔ edge_rel chain_graph p node)
      ∧ length (get_nodes_with_target chain_graph node)
        = length (filter (λ e, target e = node) (edges chain_graph))
      ∧ ∀ p, p ∈ get_nodes_with_target chain_graph node → before [0; 1; 2] p node.
Proof.
  split; [exact chain_graph_cross_registered|]. split; [exact chain_graph_sorted|].
  exact (predecessors_sorted_before chain_graph [0; 1; 2]
           chain_graph_cross_registered chain_graph_sorted).
Defined.

Lemma topological_sort_ends_witness :
  cross_registered chain_graph ∧ topological_sort chain_graph = Ok [0; 1; 2]
  ∧ (∀ v, head [0; 1; 2] = Some v → ∀ s, ¬ edge_rel chain_graph s v)
  ∧ (∀ v, last [0; 1; 2] = Some v → ∀ t, ¬ edge_rel chain_graph v t).
Proof.
  split; [exact chain_graph_cross_registered|]. split; [exact chain_graph_sorted|].
  exact (topological_sort_ends chain_graph [0; 1; 2]
           chain_graph_cross_registered chain_graph_sorted).
Defined.

(** ** Construction followed by sorting *)

Lemma str_in_elem_of (s : string) (l : list PyVal) : str_in s l = true ↔ PyStr s ∈ l.
Proof.
  unfold str_in. rewrite existsb_exists. split.
  - intros (x & Hin & Hx). destruct x; try discriminate.
    apply String.eqb_eq in Hx as ->. by apply list_elem_of_In.
  - intros Hin. exists (PyStr s). split; [by apply list_elem_of_In | apply String.eqb_refl].
Qed.

Section ConstructThenSort.

Variable VERTEX_TYPE_MAP : gmap string VertexClass.
Variable FILE_TOOLS : gset string.
Variable process_flow :
  list (list (string * PyVal)) * list (list (string * PyVal)) ->
  list (list (string * PyVal)) * list (list (string * PyVal)).
Variable _build_params : VertexObject -> list (string * ParamVal).

(** [top_level_nodes] of a constructed graph holds the "id" values of the
    nodes the constructor was given, before normalization: a string is in it
    exactly when it is not empty and is the "id" of one of those nodes; a
    node without "id", or with an empty one, contributes nothing. *)
Theorem init_top_level_nodes (nodes edges : list (list (string * PyVal))) (g : Graph)
    (w : list event) :
  __init__ VERTEX_TYPE_MAP FILE_TOOLS process_flow _build_params nodes edges = (Ok g, w) →
  ∀ s, PyStr s ∈ top_level_nodes g
       ↔ s ≠ "" ∧ ∃ node, node ∈ nodes ∧ dict_get node "id" = Some (PyStr s).
Proof.
  unfold __init__. intros H s.
  destruct (build_graph_inv _ _ _ _ _ _ _ _ H) as (_ & _ & _ & _ & _ & _ & -> & _).
  rewrite <- str_in_elem_of. apply str_in_collect_top_level.
Qed.

(** Every graph the constructor returns can be handed to [topological_sort]:
    the call either returns all the vertices, each once, with the source of
    every edge before its target, or raises the cycle error on a graph whose
    edges do form a cycle.  It never fails in another way. *)
Theorem constructed_graph_sorts (nodes links : list (list (string * PyVal))) (g : Graph)
    (w : list event) :
  __init__ VERTEX_TYPE_MAP FILE_TOOLS process_flow _build_params nodes links = (Ok g, w) →
  (∃ l, topological_sort g = Ok l ∧ l ≡ₚ vertex_refs g
        ∧ (∀ e, e ∈ edges g → before l (source e) (target e))
        ∧ acyclic g)
  ∨ (topological_sort g = Raise cycle_error ∧ ∃ v, tc (edge_rel g) v v).
Proof.
  unfold __init__. intros H.
  pose proof (build_graph_cross_registered _ _ _ _ _ _ _ _ H) as Hg.
  pose proof (topological_traversal_spec g Hg) as Hspec.
  destruct (topological_traversal g) as [[state post]|e|] eqn:E; simpl in Hspec.
  - left. exists (reverse post).
    assert (topological_sort g = Ok (reverse post)) as Hl.
    { unfold topological_sort. by rewrite E. }
    destruct (topological_sort_Ok_inv g _ Hg Hl) as (Hnd & Hmem & Hord).
    destruct Hspec as (Hnd' & _ & Hord').
    split; [exact Hl|]. split; [|split].
    + apply NoDup_Permutation; [exact Hnd | apply NoDup_seq |].
      intros v. rewrite Hmem. unfold vertex_refs. rewrite elem_of_seq. lia.
    + intros e' He'. apply Hord. by exists e'.
    + exact (ordered_no_cycle (edge_rel g) post Hnd' Hord').
  - right. destruct Hspec as (-> & Hcyc). split; [|exact Hcyc].
    unfold topological_sort. by rewrite E.
  - destruct Hspec.
Qed.

End ConstructThenSort.

Lemma init_top_level_nodes_witness :
  __init__ sample_type_map sample_file_tools (λ flow, flow) sample_params
           chain_nodes chain_edges
  = (Ok chain_graph, snd (sample_graph chain_nodes chain_edges))
  ∧ ∀ s, PyStr s ∈ top_level_nodes chain_graph
         ↔ s ≠ "" ∧ ∃ node, node ∈ chain_nodes ∧ dict_get node "id" = Some (PyStr s).
Proof.
  split; [exact chain_graph_init|].
  exact (init_top_level_nodes _ _ _ _ _ _ _ _ chain_graph_init).
Defined.

Lemma constructed_graph_sorts_witness :
  __init__ sample_type_map sample_file_tools (λ flow, flow) sample_params
           chain_nodes chain_edges
  = (Ok chain_graph, snd (sample_graph chain_nodes chain_edges))
  ∧ ((∃ l, topological_sort chain_graph = Ok l ∧ l ≡ₚ vertex_refs chain_graph
           ∧ (∀ e, e ∈ edges chain_graph → before l (source e) (target e))
           ∧ acyclic chain_graph)
     ∨ (topological_sort chain_graph = Raise cycle_error
        ∧ ∃ v, tc (edge_rel chain_graph) v v)).
Proof.
  split; [exact chain_graph_init|].
  exact (constructed_graph_sorts _ _ _ _ _ _ _ _ chain_graph_init).
Defined.
